(** * Binary telemetry storage: row-oriented versus blob-oriented storage

    A shallow embedding of [binary-telemetry-storage/data_insert.py] (the
    accumulator and the dual storage writer) and of
    [binary-telemetry-storage/data_retrieval.py] (the benchmark harness),
    followed by the properties of the two scripts.

    Conventions of the embedding.
    - A pandas DataFrame is a list of rows.  Frames whose columns are fixed by
      the script are lists of records; frames whose columns come from outside
      (the raw NDBC tables, a deserialised blob) keep a list of column names
      and positional rows of [cell]s.
    - A float64 is a rational or NaN ([float64 := option Q]); sums are exact,
      and the one rounding that is modelled is that of the text of the blob
      ([csv_float]).
    - A timestamp is a UTC calendar instant with the fields of a Python
      datetime, as the frames hold it after [pd.to_datetime(..., utc=True)].
    - The store is its three tables together with what its session decides:
      the time zone in which [extract(YEAR from date)] is evaluated
      ([session_year]; the scripts never set it) and the order in which a
      [GROUP BY] without [ORDER BY] returns its groups ([group_rank]).
    - A field of the blob payload is represented by the value written; what
      [read_csv] returns for a float field is the double [csv_float q] that
      the text written for the double [q] parses to.
    - The iteration order of the set [REQUIRED_COLUMNS] is fixed for a run and
      is a field of [Externals].
    - [time.time()] readings are omitted from the logs.
    - What the scripts obtain from outside (the NDBC download, Python's
      [float], [memory_usage], a keyboard interrupt, the random source) is a
      field of [Externals] or an explicit argument. *)

From Stdlib Require Import List ZArith QArith Qabs Qround String Ascii Bool Lia Lqa.
From Stdlib Require Import Permutation Sorted FinFun.
From Stdlib Require DecimalString.
Import ListNotations.

Open Scope string_scope.
Open Scope list_scope.
Open Scope Z_scope.

(* ================================================================== *)
(** * Part I: definitions                                              *)
(* ================================================================== *)

(** ** Exceptions and results *)

Inductive exn : Type :=
| KeyboardInterrupt
| ValueError
| KeyError
| IndexError
| TypeError.

Inductive result (A : Type) : Type :=
| Ok (a : A)
| Raise (e : exn).

Arguments Ok {A} a.
Arguments Raise {A} e.

Definition bind {A B : Type} (m : result A) (k : A -> result B) : result B :=
  match m with
  | Ok a => k a
  | Raise e => Raise e
  end.

Notation "x <- m ;; k" := (bind m (fun x => k))
  (at level 100, m at next level, right associativity).

Fixpoint mapM {A B : Type} (f : A -> result B) (l : list A) : result (list B) :=
  match l with
  | [] => Ok []
  | a :: l' => b <- f a ;; bs <- mapM f l' ;; Ok (b :: bs)
  end.

(** ** Timestamps, floats and cells *)

Record Timestamp : Type := mkTimestamp {
  year : Z; month : Z; day : Z; hour : Z; minute : Z; second : Z
}.

Definition ts_key (t : Timestamp) : list Z :=
  [year t; month t; day t; hour t; minute t; second t].

Fixpoint lex_leb (a b : list Z) : bool :=
  match a, b with
  | [], _ => true
  | _ :: _, [] => false
  | x :: a', y :: b' => if x <? y then true else if y <? x then false else lex_leb a' b'
  end.

Definition ts_leb (a b : Timestamp) : bool := lex_leb (ts_key a) (ts_key b).

Definition ts_min (a b : Timestamp) : Timestamp := if ts_leb a b then a else b.
Definition ts_max (a b : Timestamp) : Timestamp := if ts_leb a b then b else a.

Definition float64 : Type := option Q.
Definition NaN : float64 := None.

Inductive cell : Type :=
| CStr (s : string)
| CFloat (q : Q)
| CInt (z : Z)
| CTime (t : Timestamp)
| CNaN.

Definition cell_of_float (x : float64) : cell :=
  match x with
  | Some q => CFloat q
  | None => CNaN
  end.

(** ** Frames with named columns *)

Fixpoint index_of (name : string) (cols : list string) : option nat :=
  match cols with
  | [] => None
  | c :: cols' =>
      if String.eqb c name then Some O
      else option_map S (index_of name cols')
  end.

Record frame : Type := mkFrame {
  columns : list string;
  body : list (list cell)
}.

(** [f[name]]: the cells of a column, [KeyError] when the column is absent. *)
Definition column (name : string) (f : frame) : result (list cell) :=
  match index_of name (columns f) with
  | None => Raise KeyError
  | Some i => Ok (map (fun r => nth i r CNaN) (body f))
  end.

Fixpoint mask_filter {A : Type} (mask : list bool) (l : list A) : list A :=
  match mask, l with
  | b :: mask', x :: l' => if b then x :: mask_filter mask' l' else mask_filter mask' l'
  | _, _ => []
  end.

Fixpoint drop_nth {A : Type} (i : nat) (l : list A) : list A :=
  match i, l with
  | _, [] => []
  | O, _ :: l' => l'
  | S i', x :: l' => x :: drop_nth i' l'
  end.

(** [f.drop(columns=[name])] *)
Definition drop_column (name : string) (f : frame) : result frame :=
  match index_of name (columns f) with
  | None => Raise KeyError
  | Some i => Ok {| columns := drop_nth i (columns f);
                    body := map (drop_nth i) (body f) |}
  end.

(** ** data_insert.py: eligible stations (lines 104-122) *)

Record available_row : Type := mkAvailable {
  id : string;
  ayear : Z;
  filename : string
}.

(** [Series.unique()]: distinct values in order of first appearance. *)
Fixpoint unique {A : Type} (eqb : A -> A -> bool) (l : list A) : list A :=
  match l with
  | [] => []
  | x :: l' => x :: filter (fun y => negb (eqb x y)) (unique eqb l')
  end.

Definition year_span : nat := 10.

(** [available_buoys.loc[available_buoys["id"] == buoy_id]] *)
Definition loc_id (available_buoys : list available_row) (buoy_id : string)
  : list available_row :=
  filter (fun r => String.eqb (id r) buoy_id) available_buoys.

Definition years_of (d : list available_row) : list Z :=
  unique Z.eqb (map ayear d).

Fixpoint select_found (available_buoys : list available_row)
  (buoy_ids : list string) : list (list available_row) :=
  match buoy_ids with
  | [] => []
  | buoy_id :: rest =>
      if String.eqb buoy_id "41001" then select_found available_buoys rest
      else
        let d := loc_id available_buoys buoy_id in
        if (year_span <=? List.length (years_of d))%nat
        then d :: select_found available_buoys rest
        else select_found available_buoys rest
  end.

Definition found (available_buoys : list available_row)
  : list (list available_row) :=
  select_found available_buoys (unique String.eqb (map id available_buoys)).

(** ** data_insert.py: raw tables and normalisation (lines 150-183) *)

(** A table as [ndbc.to_datetime_index] returns it: a datetime index and
    positional cells under named columns. *)
Record raw_frame : Type := mkRaw {
  rcolumns : list string;
  rrows : list (Timestamp * list cell)
}.

Definition raw_cell (f : raw_frame) (name : string) (r : list cell) : cell :=
  match index_of name (rcolumns f) with
  | None => CNaN
  | Some i => nth i r CNaN
  end.

Definition union_columns (a b : list string) : list string :=
  a ++ filter (fun c => match index_of c a with None => true | Some _ => false end) b.

Definition realign (cols : list string) (f : raw_frame) : list (Timestamp * list cell) :=
  map (fun r => (fst r, map (fun c => raw_cell f c (snd r)) cols)) (rrows f).

(** [pd.concat(dfs)]: outer join on the columns, rows appended; an empty list
    of frames is a [ValueError]. *)
Definition pd_concat (dfs : list raw_frame) : result raw_frame :=
  match dfs with
  | [] => Raise ValueError
  | _ :: _ =>
      let cols := fold_left union_columns (map rcolumns dfs) [] in
      Ok {| rcolumns := cols; rrows := flat_map (realign cols) dfs |}
  end.

(** What the script takes from outside. *)
Inductive fetch_result : Type :=
| Fetched (tables : list raw_frame)
| FetchFailed
| FetchInterrupted.

Inductive try_block : Type := InConcat | InNormalize.

Record Obs : Type := mkObs {
  hm0 : float64;
  tp : float64;
  date : Timestamp;
  data_set_id : Z
}.

Record Externals : Type := mkExternals {
  (** [ndbc.request_data] followed by [ndbc.to_datetime_index] on each year,
      which is taken to succeed on what was fetched *)
  request_data : list string -> fetch_result;
  (** a keyboard interrupt arriving inside a try block of station [index] *)
  interrupted : Z -> try_block -> bool;
  (** Python's [float(s)]; [None] is a [ValueError] *)
  py_float : string -> option float64;
  (** [data.memory_usage(deep=True).sum()], in bytes *)
  memory_usage : list Obs -> Z;
  (** whether [WVHT] comes first when the set [REQUIRED_COLUMNS] is iterated,
      which the hash seed of the run decides *)
  wvht_first : bool
}.

(** [list(REQUIRED_COLUMNS)] *)
Definition REQUIRED_COLUMNS (X : Externals) : list string :=
  if wvht_first X then ["WVHT"; "DPD"] else ["DPD"; "WVHT"].

Definition RENAME (c : string) : string :=
  if String.eqb c "WVHT" then "hm0"
  else if String.eqb c "DPD" then "tp" else c.

(** [series != "m"], elementwise *)
Definition ne_m (c : cell) : bool :=
  match c with
  | CStr s => negb (String.eqb s "m")
  | _ => true
  end.

(** [astype(float)] on one cell *)
Definition astype_float (X : Externals) (c : cell) : result float64 :=
  match c with
  | CStr s => match py_float X s with
              | Some x => Ok x
              | None => Raise ValueError
              end
  | CFloat q => Ok (Some q)
  | CInt z => Ok (Some (inject_Z z))
  | CTime _ => Raise TypeError
  | CNaN => Ok NaN
  end.

Fixpoint insert_sorted {A : Type} (r : Timestamp * A) (l : list (Timestamp * A))
  : list (Timestamp * A) :=
  match l with
  | [] => [r]
  | r' :: l' => if ts_leb (fst r) (fst r') then r :: l else r' :: insert_sorted r l'
  end.

(** [sort_index()]: ascending dates.  Rows of equal date keep their order
    here; pandas' default quicksort does not promise that, and the properties
    below are stated up to the order of such rows. *)
Definition sort_index {A : Type} (l : list (Timestamp * A)) : list (Timestamp * A) :=
  fold_right insert_sorted [] l.

(** The float frame after lines 165-173, columns [hm0] and [tp]. *)
Definition float_row : Type := (Timestamp * (float64 * float64))%type.

Definition required_present (X : Externals) (f : raw_frame) : result unit :=
  _ <- mapM (fun c => match index_of c (rcolumns f) with
                      | Some i => Ok i
                      | None => Raise KeyError
                      end) (REQUIRED_COLUMNS X) ;;
  Ok tt.

Definition astype_row (X : Externals) (f : raw_frame) (r : Timestamp * list cell)
  : result float_row :=
  h <- astype_float X (raw_cell f "WVHT" (snd r)) ;;
  t <- astype_float X (raw_cell f "DPD" (snd r)) ;;
  Ok (fst r, (h, t)).

(** Lines 163-173, the body of the third try block. *)
Definition normalize (X : Externals) (data : raw_frame) : result (list float_row) :=
  (* data = data[data["WVHT"] != "m"] *)
  _ <- match index_of "WVHT" (rcolumns data) with
       | Some i => Ok i
       | None => Raise KeyError
       end ;;
  let kept := filter (fun r => ne_m (raw_cell data "WVHT" (snd r))) (rrows data) in
  (* data = data[list(REQUIRED_COLUMNS)] *)
  _ <- required_present X data ;;
  (* data[...] = data[...].astype(float) *)
  floats <- mapM (astype_row X data) kept ;;
  (* data = data.sort_index(); data = data.rename(columns=RENAME) *)
  Ok (sort_index floats).

(** Lines 179-183: the renamed columns are floats already, the [date] column
    is taken from the index, the index is reset, the [data_set_id] column is
    [index + 1], and the dates are UTC timestamps already. *)
Definition finalize (index : Z) (rows : list float_row) : list Obs :=
  map (fun r => {| hm0 := fst (snd r); tp := snd (snd r); date := fst r;
                   data_set_id := index + 1 |}) rows.

(** ** data_insert.py: the accumulation loop (lines 124-187) *)

Record ds_entry : Type := mkEntry {
  data : list Obs;
  data_size : Q
}.

Record acc_state : Type := mkAcc {
  mem_used : Q;
  data_sets : list (Z * ds_entry);
  (** the calls made to [ndbc.request_data], latest first *)
  requested : list (list string)
}.

Definition mem_desired : Q := 500%Q.

(** [d[key] = v] on a dict kept in insertion order *)
Fixpoint dict_set {V : Type} (key : Z) (v : V) (d : list (Z * V)) : list (Z * V) :=
  match d with
  | [] => [(key, v)]
  | (k, w) :: d' => if k =? key then (k, v) :: d' else (k, w) :: dict_set key v d'
  end.

Inductive station_outcome : Type :=
| Break
| Continue
| Accepted (data : list Obs).

(** The body of the loop from the fetch to line 183.  [KeyboardInterrupt]
    and the other exceptions are those that the three [try] blocks catch; the
    statements between and after the blocks (lines 150-154 and 179-187) are
    taken to complete. *)
Definition process_station (X : Externals) (index : Z) (df : list available_row)
  : station_outcome :=
  match request_data X (map filename df) with
  | FetchInterrupted => Break
  | FetchFailed => Continue
  | Fetched dfs =>
      if interrupted X index InConcat then Break else
      match pd_concat dfs with
      | Raise _ => Continue
      | Ok data =>
          if interrupted X index InNormalize then Break else
          match normalize X data with
          | Raise _ => Continue
          | Ok rows => Accepted (finalize index rows)
          end
      end
  end.

Definition size_mb (X : Externals) (data : list Obs) : Q :=
  (inject_Z (memory_usage X data) / 1000000)%Q.

Definition store_data_set (X : Externals) (index : Z) (data : list Obs)
  (st : acc_state) : acc_state :=
  {| mem_used := (mem_used st + size_mb X data)%Q;
     data_sets := dict_set (index + 1)
                    {| data := data; data_size := size_mb X data |} (data_sets st);
     requested := requested st |}.

Fixpoint enumerate_from {A : Type} (start : Z) (l : list A) : list (Z * A) :=
  match l with
  | [] => []
  | x :: l' => (start, x) :: enumerate_from (start + 1) l'
  end.

Definition enumerate {A : Type} (l : list A) : list (Z * A) := enumerate_from 0 l.

Fixpoint gather (X : Externals) (l : list (Z * list available_row))
  (st : acc_state) : acc_state :=
  match l with
  | [] => st
  | (index, df) :: rest =>
      if Qle_bool mem_desired (mem_used st) then st
      else
        let st1 := {| mem_used := mem_used st; data_sets := data_sets st;
                      requested := map filename df :: requested st |} in
        match process_station X index df with
        | Break => st1
        | Continue => gather X rest st1
        | Accepted data => gather X rest (store_data_set X index data st1)
        end
  end.

Definition initial_state : acc_state :=
  {| mem_used := 0%Q; data_sets := []; requested := [] |}.

Definition accumulate (X : Externals) (available_buoys : list available_row)
  : acc_state :=
  gather X (enumerate (found available_buoys)) initial_state.

(** ** data_insert.py: the writer (lines 190-234) *)

(** The blob payload: the header line and the records of the delimited text. *)
Record csv : Type := mkCsv {
  header : list string;
  records : list (list cell)
}.

Record BlobRecord : Type := mkBlob {
  b_data_set_id : Z;
  b_data : csv
}.

(** The store as a connection sees it: the three tables and the two choices
    of the session.  A row of [row_data] has the columns of the frame that
    [to_sql(..., index=False)] appends, so it is an [Obs]. *)
Record DB : Type := mkDB {
  row_data : list Obs;
  binary_data : list BlobRecord;
  data_size_table : list (Z * Q);
  (** [extract(YEAR from date)]: the year of an instant in the time zone of
      the session *)
  session_year : Timestamp -> Z;
  (** the groups of a [GROUP BY] come back by ascending rank *)
  group_rank : Z -> Z
}.

(** An empty store whose session is in UTC. *)
Definition empty_db : DB :=
  {| row_data := []; binary_data := []; data_size_table := [];
     session_year := year; group_rank := fun _ => 0 |}.

(** The two float cells of a row, in the order of the columns. *)
Definition float_cells (X : Externals) (o : Obs) : list cell :=
  if wvht_first X then [cell_of_float (hm0 o); cell_of_float (tp o)]
  else [cell_of_float (tp o); cell_of_float (hm0 o)].

(** The frame [data] with its four columns, as a frame with named columns. *)
Definition frame_of_data (X : Externals) (d : list Obs) : frame :=
  {| columns := map RENAME (REQUIRED_COLUMNS X) ++ ["date"; "data_set_id"];
     body := map (fun o => float_cells X o ++ [CTime (date o); CInt (data_set_id o)])
                 d |}.

(** [data.to_csv(buf)]: the index is written as a first column with an empty
    name ([index=True] is the default); the index is the range index left by
    [reset_index(drop=True)]. *)
Definition to_csv (f : frame) : csv :=
  {| header := "" :: columns f;
     records := map (fun r => CInt (fst r) :: snd r) (enumerate (body f)) |}.

Definition write_data_set (X : Externals) (c : DB) (key : Z) (e : ds_entry)
  : result DB :=
  (* data.to_sql(name="row_data", con=c, if_exists="append", index=False) *)
  let rows := row_data c ++ data e in
  (* data = data.drop(columns=["data_set_id"]) *)
  f <- drop_column "data_set_id" (frame_of_data X (data e)) ;;
  (* q_insert with buf.read() *)
  let blobs := binary_data c ++ [ {| b_data_set_id := key; b_data := to_csv f |} ] in
  (* q_size *)
  let sizes := data_size_table c ++ [ (key, data_size e) ] in
  Ok {| row_data := rows; binary_data := blobs; data_size_table := sizes;
        session_year := session_year c; group_rank := group_rank c |}.

Fixpoint writer (X : Externals) (c : DB) (data_sets : list (Z * ds_entry))
  : result DB :=
  match data_sets with
  | [] => Ok c
  | (key, e) :: rest => c' <- write_data_set X c key e ;; writer X c' rest
  end.

(** ** data_retrieval.py: queries and series operations *)

Definition availabe_ids : list Z := map Z.of_nat (seq 1 57).

Record request : Type := mkRequest {
  rid : Z;
  start_year : Z;
  end_year : Z
}.

(** [SELECT * FROM row_data where data_set_id = {}]; the rows come back in
    the order of the table. *)
Definition row_q (c : DB) (set_id : Z) : list Obs :=
  filter (fun r => data_set_id r =? set_id) (row_data c).

(** [SELECT * from binary_data where data_set_id = (:set_id)] *)
Definition binary_q (c : DB) (set_id : Z) : list BlobRecord :=
  filter (fun b => b_data_set_id b =? set_id) (binary_data c).

Definition in_years (param : request) (y : Z) : bool :=
  (start_year param <=? y) && (y <=? end_year param).

(** The second [row_q], with the year bounds in the query: the store takes
    the year of [date] in the time zone of the session. *)
Definition row_q_filtered (c : DB) (param : request) : list Obs :=
  filter (fun r => (data_set_id r =? rid param)
                   && in_years param (session_year c (date r)))
         (row_data c).

(** [res[0]] *)
Definition first_row {A : Type} (res : list A) : result A :=
  match res with
  | [] => Raise IndexError
  | r :: _ => Ok r
  end.

Definition nat_string (i : nat) : string :=
  DecimalString.NilZero.string_of_uint (Nat.to_uint i).

(** What [read_csv] makes of a field: for a float, the double that the text
    of the field parses to. *)
Definition parse_cell (csv_float : Q -> Q) (x : cell) : cell :=
  match x with
  | CFloat q => CFloat (csv_float q)
  | _ => x
  end.

(** [pd.read_csv(d)]: a column whose header field is empty is named
    [Unnamed: i]; a payload without a header line is an [EmptyDataError]
    (a [ValueError]). *)
Definition read_csv (csv_float : Q -> Q) (d : csv) : result frame :=
  match header d with
  | [] => Raise ValueError
  | _ :: _ =>
      Ok {| columns := map (fun h => if String.eqb (snd h) ""
                                     then String.append "Unnamed: " (nat_string (Z.to_nat (fst h)))
                                     else snd h)
                           (enumerate (header d));
            body := map (map (parse_cell csv_float)) (records d) |}
  end.

(** Days since 1970-01-01 to a calendar date. *)
Definition civil_from_days (z0 : Z) : Z * Z * Z :=
  let z := z0 + 719468 in
  let era := z / 146097 in
  let doe := z - era * 146097 in
  let yoe := (doe - doe / 1460 + doe / 36524 - doe / 146096) / 365 in
  let doy := doe - (365 * yoe + yoe / 4 - yoe / 100) in
  let mp := (5 * doy + 2) / 153 in
  let d := doy - (153 * mp + 2) / 5 + 1 in
  let m := if mp <? 10 then mp + 3 else mp - 9 in
  (yoe + era * 400 + (if m <=? 2 then 1 else 0), m, d).

Definition of_epoch_ns (ns : Z) : Timestamp :=
  let s := ns / 1000000000 in
  let sod := s mod 86400 in
  let '(y, m, d) := civil_from_days (s / 86400) in
  {| year := y; month := m; day := d;
     hour := sod / 3600; minute := (sod mod 3600) / 60; second := sod mod 60 |}.

(** Nanoseconds since the epoch, within the range of a timestamp;
    [OutOfBoundsDatetime] (a [ValueError]) outside it. *)
Definition of_epoch_ns_checked (ns : Z) : result (option Timestamp) :=
  if (- 2 ^ 63 <? ns) && (ns <? 2 ^ 63) then Ok (Some (of_epoch_ns ns))
  else Raise ValueError.

(** [pd.to_datetime(series, utc=True)] on one cell: a timestamp stays, a
    missing value is NaT, a number counts nanoseconds since the epoch, other
    text does not parse. *)
Definition to_datetime_cell (x : cell) : result (option Timestamp) :=
  match x with
  | CTime t => Ok (Some t)
  | CNaN => Ok None
  | CInt z => of_epoch_ns_checked z
  | CFloat q => of_epoch_ns_checked (Qfloor q)
  | CStr _ => Raise ValueError
  end.

Definition to_datetime (col : list cell) : result (list (option Timestamp)) :=
  mapM to_datetime_cell col.

Definition opt_combine (f : Timestamp -> Timestamp -> Timestamp)
  (a b : option Timestamp) : option Timestamp :=
  match a, b with
  | Some x, Some y => Some (f x y)
  | Some x, None => Some x
  | None, _ => b
  end.

(** [series.min()] and [series.max()] on timestamps; NaT is skipped and is the
    result for a series without a value. *)
Definition series_min (l : list (option Timestamp)) : option Timestamp :=
  fold_left (opt_combine ts_min) l None.

Definition series_max (l : list (option Timestamp)) : option Timestamp :=
  fold_left (opt_combine ts_max) l None.

(** [series.sum()] on a float column: NaN is skipped. *)
Definition sum_skipna (l : list float64) : Q :=
  fold_left (fun acc x => match x with Some q => (acc + q)%Q | None => acc end) l 0%Q.

(** [series.sum()] on a column of a deserialised blob.  The writer only
    produces float columns for [tp]; on a column that holds text, which pandas
    would read as text and concatenate, and on timestamps, the sum is reported
    here as a [TypeError]: the properties below say nothing of the sum of
    such a column. *)
Definition float_of_cell (x : cell) : result float64 :=
  match x with
  | CFloat q => Ok (Some q)
  | CInt z => Ok (Some (inject_Z z))
  | CNaN => Ok NaN
  | CStr _ => Raise TypeError
  | CTime _ => Raise TypeError
  end.

Definition series_sum (col : list cell) : result Q :=
  xs <- mapM float_of_cell col ;; Ok (sum_skipna xs).

(** ** data_retrieval.py: request parameters (lines 132-149) *)

Fixpoint insert_by (rank : Z -> Z) (i : Z) (l : list Z) : list Z :=
  match l with
  | [] => [i]
  | j :: l' => if rank i <=? rank j then i :: l else j :: insert_by rank i l'
  end.

(** The order in which the store returns groups: by ascending rank. *)
Definition order_by (rank : Z -> Z) (l : list Z) : list Z :=
  fold_right (insert_by rank) [] l.

(** [req_query]: one line per [data_set_id] with the least and the greatest
    [date]; the query has no [ORDER BY], the store chooses the order of the
    lines. *)
Definition req_query (c : DB)
  : list (Z * option Timestamp * option Timestamp) :=
  map (fun i => let ds := map (fun r => Some (date r)) (row_q c i) in
                (i, series_min ds, series_max ds))
      (order_by (group_rank c) (unique Z.eqb (map data_set_id (row_data c)))).

(** [pd.to_datetime(x).year]; the year of NaT is NaN, which [range] refuses. *)
Definition year_attr (t : option Timestamp) : result Z :=
  match t with
  | Some t => Ok (year t)
  | None => Raise TypeError
  end.

(** [range(a, b)] *)
Definition py_range (a b : Z) : list Z :=
  map (fun i => a + Z.of_nat i) (seq 0 (Z.to_nat (b - a))).

(** [random.sample(population, k)]: [k] positions drawn without replacement,
    the raw draws taken from [draw] at [pos], [pos + 1], ...; a sample larger
    than the population is a [ValueError]. *)
Fixpoint sample_loop (draw : nat -> nat) (pos : nat) (pool : list Z) (k : nat)
  : list Z :=
  match k with
  | O => []
  | S k' =>
      let j := (draw pos mod List.length pool)%nat in
      nth j pool 0 :: sample_loop draw (S pos) (drop_nth j pool) k'
  end.

Definition random_sample (draw : nat -> nat) (pos : nat) (population : list Z)
  (k : nat) : result (list Z) :=
  if (k <=? List.length population)%nat
  then Ok (sample_loop draw pos population k)
  else Raise ValueError.

(** [min(years)] and [max(years)] *)
Definition py_min (l : list Z) : result Z :=
  match l with
  | [] => Raise ValueError
  | x :: l' => Ok (fold_left Z.min l' x)
  end.

Definition py_max (l : list Z) : result Z :=
  match l with
  | [] => Raise ValueError
  | x :: l' => Ok (fold_left Z.max l' x)
  end.

Definition build_request (draw : nat -> nat) (pos : nat)
  (d : Z * option Timestamp * option Timestamp) : result request :=
  let '(i, mn, mx) := d in
  start <- year_attr mn ;;
  end_ <- year_attr mx ;;
  years <- random_sample draw pos (py_range start end_) 2 ;;
  lo <- py_min years ;;
  hi <- py_max years ;;
  Ok {| rid := i; start_year := lo; end_year := hi |}.

Fixpoint build_requests (draw : nat -> nat) (pos : nat)
  (req_info : list (Z * option Timestamp * option Timestamp))
  : result (list request) :=
  match req_info with
  | [] => Ok []
  | d :: rest =>
      r <- build_request draw pos d ;;
      rs <- build_requests draw (pos + 2) rest ;;
      Ok (r :: rs)
  end.

(** ** data_retrieval.py: the two benchmark loops (lines 105-265) *)

(** A log is a dict of lists, one list per report column. *)
Record data_log (I : Type) : Type := mkLog {
  set_id : list I;
  min_date : list (option Timestamp);
  max_date : list (option Timestamp);
  tp_sum : list Q
}.

Arguments mkLog {I}.
Arguments set_id {I}.
Arguments min_date {I}.
Arguments max_date {I}.
Arguments tp_sum {I}.

Definition empty_log {I : Type} : data_log I :=
  {| set_id := []; min_date := []; max_date := []; tp_sum := [] |}.

(** The four [append]s of one iteration. *)
Definition log_append {I : Type} (lg : data_log I) (i : I)
  (mn mx : option Timestamp) (s : Q) : data_log I :=
  {| set_id := set_id lg ++ [i];
     min_date := min_date lg ++ [mn];
     max_date := max_date lg ++ [mx];
     tp_sum := tp_sum lg ++ [s] |}.

(** One measurement: the identifier as logged, least and greatest date, the
    sum of [tp]. *)
Definition measure (I : Type) : Type :=
  (I * option Timestamp * option Timestamp * Q)%type.

Definition log_measure {I : Type} (lg : data_log I) (m : measure I) : data_log I :=
  let '(i, mn, mx, s) := m in log_append lg i mn mx s.

(** The row part of an iteration, on the frame the query returned. *)
Definition measure_rows (d_rows : list Obs) : measure (list Z) :=
  let dates := map (fun r => Some (date r)) d_rows in
  (unique Z.eqb (map data_set_id d_rows),
   series_min dates, series_max dates, sum_skipna (map tp d_rows)).

(** The binary part of an iteration of the full scan (lines 170-185). *)
Definition measure_binary_full (csv_float : Q -> Q) (c : DB) (set_id : Z) : result (measure Z) :=
  let res := binary_q c set_id in
  r0 <- first_row res ;;
  d_binary <- read_csv csv_float (b_data r0) ;;
  col <- column "date" d_binary ;;
  dates <- to_datetime col ;;
  tps <- column "tp" d_binary ;;
  s <- series_sum tps ;;
  Ok (b_data_set_id r0, series_min dates, series_max dates, s).

(** The binary part of an iteration of the filtered scan (lines 237-258):
    the mask on the years, then the same aggregates. *)
Definition year_mask (param : request) (dates : list (option Timestamp)) : list bool :=
  map (fun t => match t with
                | Some t => in_years param (year t)
                | None => false
                end) dates.

Definition measure_binary_filtered (csv_float : Q -> Q) (c : DB) (param : request)
  : result (measure Z) :=
  let res := binary_q c (rid param) in
  r0 <- first_row res ;;
  d_binary <- read_csv csv_float (b_data r0) ;;
  col <- column "date" d_binary ;;
  dates <- to_datetime col ;;
  let mask := year_mask param dates in
  let masked := {| columns := columns d_binary;
                   body := mask_filter mask (body d_binary) |} in
  let dates' := mask_filter mask dates in
  tps <- column "tp" masked ;;
  s <- series_sum tps ;;
  Ok (b_data_set_id r0, series_min dates', series_max dates', s).

Definition logs : Type := (data_log (list Z) * data_log Z)%type.

Fixpoint full_scan_from (csv_float : Q -> Q) (c : DB) (ids : list Z) (lg : logs)
  : result logs :=
  match ids with
  | [] => Ok lg
  | i :: rest =>
      let rows_log := log_measure (fst lg) (measure_rows (row_q c i)) in
      m <- measure_binary_full csv_float c i ;;
      full_scan_from csv_float c rest (rows_log, log_measure (snd lg) m)
  end.

Definition full_scan (csv_float : Q -> Q) (c : DB) (ids : list Z) : result logs :=
  full_scan_from csv_float c ids (empty_log, empty_log).

Fixpoint filtered_scan_from (csv_float : Q -> Q) (c : DB) (requests : list request)
  (lg : logs) : result logs :=
  match requests with
  | [] => Ok lg
  | param :: rest =>
      let rows_log := log_measure (fst lg) (measure_rows (row_q_filtered c param)) in
      m <- measure_binary_filtered csv_float c param ;;
      filtered_scan_from csv_float c rest (rows_log, log_measure (snd lg) m)
  end.

Definition filtered_scan (csv_float : Q -> Q) (c : DB) (requests : list request)
  : result logs :=
  filtered_scan_from csv_float c requests (empty_log, empty_log).

(** What a run leaves behind: the report files written so far and the
    exception that ended it, if any. *)
Inductive report_file : Type :=
| RowsReport (name : string) (lg : data_log (list Z))
| BinaryReport (name : string) (lg : data_log Z).

Record outcome : Type := mkOutcome {
  written : list report_file;
  raised : option exn
}.

Definition run_harness (csv_float : Q -> Q) (draw : nat -> nat) (c : DB) : outcome :=
  match build_requests draw 0 (req_query c) with
  | Raise e => {| written := []; raised := Some e |}
  | Ok requests =>
      match full_scan csv_float c availabe_ids with
      | Raise e => {| written := []; raised := Some e |}
      | Ok (lr, lb) =>
          let w := [RowsReport "all_years_rows.csv" lr;
                    BinaryReport "all_years_binary.csv" lb] in
          match filtered_scan csv_float c requests with
          | Raise e => {| written := w; raised := Some e |}
          | Ok (fr, fb) =>
              {| written := w ++ [RowsReport "filtered_years_rows.csv" fr;
                                  BinaryReport "filtered_years_binary.csv" fb];
                 raised := None |}
          end
      end
  end.

(** ** Notions used to state the properties *)

(** The sizes of the accumulated data sets, added in insertion order. *)
Definition total_size (ds : list (Z * ds_entry)) : Q :=
  fold_left (fun acc ke => (acc + data_size (snd ke))%Q) ds 0%Q.

(** The first occurrence of [a] in [l] comes before the first of [b]. *)
Definition first_before (l : list string) (a b : string) : Prop :=
  exists i j, index_of a l = Some i /\ index_of b l = Some j /\ (i < j)%nat.

(** The stations that the loop over [available_buoy_ids] keeps. *)
Definition kept_ids (available_buoys : list available_row) : list string :=
  filter (fun b => negb (String.eqb b "41001") &&
                   (year_span <=? List.length (years_of (loc_id available_buoys b)))%nat)
         (unique String.eqb (map id available_buoys)).

(** A group of [available_buoys] that the year-span filter lets through. *)
Definition eligible (available_buoys : list available_row)
  (d : list available_row) : Prop :=
  exists buoy_id,
    d = loc_id available_buoys buoy_id /\ buoy_id <> "41001" /\
    (year_span <= List.length (years_of d))%nat.

(** What holds of the accumulator state each time the loop reaches its head,
    for the list [fnd] of eligible groups. *)
Record acc_inv (X : Externals) (fnd : list (list available_row))
  (st : acc_state) : Prop := mkInv {
  inv_keys :
    Forall (fun ke => 1 <= fst ke <= Z.of_nat (List.length (requested st)))
           (data_sets st);
  inv_sorted : StronglySorted Z.lt (map fst (data_sets st));
  inv_origin :
    Forall (fun ke => exists d,
                nth_error fnd (Z.to_nat (fst ke - 1)) = Some d /\
                process_station X (fst ke - 1) d = Accepted (data (snd ke)) /\
                data_size (snd ke) = size_mb X (data (snd ke)))
           (data_sets st);
  inv_mem : mem_used st = total_size (data_sets st);
  inv_below :
    forall front ke back,
      data_sets st = front ++ ke :: back -> (total_size front < mem_desired)%Q;
  inv_requested :
    Forall (fun fs => exists d, In d fnd /\ fs = map filename d) (requested st);
  inv_visited : (List.length (requested st) <= List.length fnd)%nat;
  inv_stop :
    (mem_desired <= mem_used st)%Q ->
    exists front k e,
      data_sets st = front ++ [(k, e)] /\
      k = Z.of_nat (List.length (requested st))
}.

(** The claimed row-level policy: a row whose [WVHT] or [DPD] does not coerce
    is dropped on its own and the other rows are kept. *)
Definition normalize_row_level (X : Externals) (data : raw_frame) : list float_row :=
  sort_index
    (flat_map (fun r => match astype_row X data r with
                        | Ok fr => [fr]
                        | Raise _ => []
                        end) (rrows data)).

(** The observations of a data set as [read_csv] returns their values, and
    those of a deserialised blob, as the three values the claim names. *)
Definition observations (csv_float : Q -> Q) (d : list Obs) : list (cell * cell * cell) :=
  map (fun o => (CTime (date o), parse_cell csv_float (cell_of_float (hm0 o)),
                 parse_cell csv_float (cell_of_float (tp o)))) d.

Definition frame_observations (f : frame) : result (list (cell * cell * cell)) :=
  ds <- column "date" f ;;
  hs <- column "hm0" f ;;
  ts <- column "tp" f ;;
  Ok (combine (combine ds hs) ts).

(** The blob of a data set as the writer stores it, read back. *)
Definition blob_round_trip (X : Externals) (csv_float : Q -> Q) (d : list Obs)
  : result frame :=
  f <- drop_column "data_set_id" (frame_of_data X d) ;;
  read_csv csv_float (to_csv f).

(** The frame that holds the observations of [d] and nothing else. *)
Definition observation_frame (X : Externals) (d : list Obs) : frame :=
  {| columns := map RENAME (REQUIRED_COLUMNS X) ++ ["date"];
     body := map (fun o => float_cells X o ++ [CTime (date o)]) d |}.

(** What the harness reads back from the blob of [d]. *)
Definition read_back (X : Externals) (csv_float : Q -> Q) (d : list Obs) : frame :=
  {| columns := "Unnamed: 0" :: map RENAME (REQUIRED_COLUMNS X) ++ ["date"];
     body := map (fun r => CInt (fst r) :: map (parse_cell csv_float) (snd r))
                 (enumerate (body (observation_frame X d))) |}.

(** A float as [read_csv] returns it. *)
Definition read_float (csv_float : Q -> Q) (x : float64) : float64 :=
  option_map csv_float x.

(** The row log and the binary log of each loop, each computed on its own. *)
Definition rows_log_full (rows : list Obs) (ids : list Z) : data_log (list Z) :=
  fold_left (fun lg i =>
               log_measure lg (measure_rows (filter (fun r => data_set_id r =? i) rows)))
            ids empty_log.

Definition rows_log_filtered (zone_year : Timestamp -> Z) (rows : list Obs)
  (requests : list request) : data_log (list Z) :=
  fold_left (fun lg param =>
               log_measure lg
                 (measure_rows
                    (filter (fun r => (data_set_id r =? rid param)
                                      && in_years param (zone_year (date r))) rows)))
            requests empty_log.

Fixpoint binary_log_full (csv_float : Q -> Q) (c : DB) (ids : list Z)
  (lg : data_log Z) : result (data_log Z) :=
  match ids with
  | [] => Ok lg
  | i :: rest =>
      m <- measure_binary_full csv_float c i ;;
      binary_log_full csv_float c rest (log_measure lg m)
  end.

Fixpoint binary_log_filtered (csv_float : Q -> Q) (c : DB)
  (requests : list request) (lg : data_log Z) : result (data_log Z) :=
  match requests with
  | [] => Ok lg
  | param :: rest =>
      m <- measure_binary_filtered csv_float c param ;;
      binary_log_filtered csv_float c rest (log_measure lg m)
  end.

(** The blob record that the writer stores for an entry of [data_sets]. *)
Definition blob_of (X : Externals) (ke : Z * ds_entry) : BlobRecord :=
  {| b_data_set_id := fst ke;
     b_data := to_csv (observation_frame X (data (snd ke))) |}.

(** Data sets whose keys are distinct and whose rows carry the key. *)
Definition keyed (ds : list (Z * ds_entry)) : Prop :=
  NoDup (map fst ds) /\
  Forall (fun ke => Forall (fun o => data_set_id o = fst ke) (data (snd ke))) ds.

(** A line of [req_info] whose years leave fewer than two to sample from. *)
Definition narrow (d : Z * option Timestamp * option Timestamp) : Prop :=
  match d with
  | (_, Some mn, Some mx) => year mx - year mn < 2
  | _ => False
  end.

Definition tp_sum_of {I : Type} (m : measure I) : Q := snd m.

(** The least and the greatest date of a measurement. *)
Definition dates_of {I : Type} (m : measure I) : option Timestamp * option Timestamp :=
  let '(_, mn, mx, _) := m in (mn, mx).

(** The identifier that a measurement is logged under. *)
Definition id_of {I : Type} (m : measure I) : I := fst (fst (fst m)).

(** The log that holds the measurements [ms], one line each, in order. *)
Definition log_of {I : Type} (ms : list (measure I)) : data_log I :=
  {| set_id := map id_of ms;
     min_date := map (fun m => fst (dates_of m)) ms;
     max_date := map (fun m => snd (dates_of m)) ms;
     tp_sum := map tp_sum_of ms |}.




Definition report_name (f : report_file) : string :=
  match f with
  | RowsReport name _ => name
  | BinaryReport name _ => name
  end.

(** ** Concrete inputs *)

Definition ts (y m d : Z) : Timestamp :=
  {| year := y; month := m; day := d; hour := 0; minute := 50; second := 0 |}.

(** Python's [float] on the few literals that the examples use. *)
Definition py_float_ex (s : string) : option float64 :=
  if String.eqb s "1.5" then Some (Some 1.5%Q)
  else if String.eqb s "8.0" then Some (Some 8%Q)
  else if String.eqb s "0.5" then Some (Some 0.5%Q)
  else if String.eqb s "nan" then Some NaN
  else None.

Definition ex_years (buoy_id : string) (first count : nat) : list available_row :=
  map (fun y => {| id := buoy_id; ayear := Z.of_nat y;
                   filename := String.append buoy_id
                                 (String.append "h" (nat_string y)) |})
      (seq first count).

(** Two stations with ten years each and one with three. *)
Definition ex_available : list available_row :=
  ex_years "44013" 2000 10 ++ ex_years "51001" 2005 3 ++ ex_years "46042" 2000 10.

(** A year table with its unit row, as [request_data] returns it. *)
Definition ex_table (y : Z) : raw_frame :=
  {| rcolumns := ["WDIR"; "WVHT"; "DPD"];
     rrows := [ (ts y 1 1, [CStr "degT"; CStr "m"; CStr "sec"]);
                (ts y 6 1, [CStr "270"; CStr "1.5"; CStr "8.0"]);
                (ts y 3 1, [CStr "180"; CStr "0.5"; CStr "nan"]) ] |}.

(** The first station cannot be fetched, the others can. *)
Definition ex_externals : Externals :=
  {| request_data := fun fs =>
       match fs with
       | f :: _ => if String.prefix "44013" f then FetchFailed
                   else Fetched [ex_table 2005; ex_table 2006; ex_table 2008]
       | [] => FetchFailed
       end;
     interrupted := fun _ _ => false;
     py_float := py_float_ex;
     memory_usage := fun d => 128 + 32 * Z.of_nat (List.length d);
     wvht_first := true |}.

(** A table with one row whose [WVHT] is not a number. *)
Definition ex_bad_table : raw_frame :=
  {| rcolumns := ["WVHT"; "DPD"];
     rrows := [ (ts 2005 1 1, [CStr "1.5"; CStr "8.0"]);
                (ts 2005 1 2, [CStr "MM"; CStr "8.0"]) ] |}.

(** A source whose every station returns that table. *)
Definition ex_externals_bad : Externals :=
  {| request_data := fun _ => Fetched [ex_bad_table];
     interrupted := fun _ _ => false;
     py_float := py_float_ex;
     memory_usage := fun d => 128 + 32 * Z.of_nat (List.length d);
     wvht_first := true |}.

(** A source whose data sets take 300 MB each. *)
Definition ex_externals_large : Externals :=
  {| request_data := fun _ => Fetched [ex_table 2005; ex_table 2008];
     interrupted := fun _ _ => false;
     py_float := py_float_ex;
     memory_usage := fun _ => 300000000;
     wvht_first := false |}.

(** A data set of two observations, the second without a [tp]. *)
Definition ex_data : list Obs :=
  [ {| hm0 := Some 1.5%Q; tp := Some 8%Q; date := ts 2005 1 1; data_set_id := 1 |};
    {| hm0 := Some 0.5%Q; tp := NaN; date := ts 2005 1 2; data_set_id := 1 |} ].

(** A [read_csv] that returns every float as it was written. *)
Definition exact_csv_float (q : Q) : Q := q.








(** A store in which the rows of data set 1 and its blob disagree on [tp];
    every identifier of [availabe_ids] has a blob. *)
Definition ex_blob (i : Z) : BlobRecord :=
  {| b_data_set_id := i;
     b_data := {| header := [""; "hm0"; "tp"; "date"];
                  records := [[CInt 0; CFloat 1.5; CFloat 8; CTime (ts 2005 1 1)];
                              [CInt 1; CFloat 1.5; CFloat 8; CTime (ts 2008 1 1)]] |} |}.

Definition ex_db_mismatch : DB :=
  {| row_data := [ {| hm0 := Some 1.5%Q; tp := Some 9%Q; date := ts 2005 1 1;
                      data_set_id := 1 |};
                   {| hm0 := Some 1.5%Q; tp := Some 8%Q; date := ts 2008 1 1;
                      data_set_id := 1 |} ];
     binary_data := map ex_blob availabe_ids;
     data_size_table := [];
     session_year := year; group_rank := fun _ => 0 |}.

(** A store whose only data set lies within one calendar year. *)
Definition ex_db_one_year : DB :=
  {| row_data := [ {| hm0 := Some 1.5%Q; tp := Some 8%Q; date := ts 2005 1 1;
                      data_set_id := 1 |};
                   {| hm0 := Some 1.5%Q; tp := Some 8%Q; date := ts 2005 7 1;
                      data_set_id := 1 |} ];
     binary_data := map ex_blob availabe_ids;
     data_size_table := [];
     session_year := year; group_rank := fun _ => 0 |}.

Definition ex_draw (n : nat) : nat := (3 * n + 1)%nat.

(** ** connect_pg (both scripts, lines 36-101 and 37-102) *)

(** A Python value of the connection options: a string or an integer. *)
Inductive pyval : Type :=
| PStr (s : string)
| PInt (z : Z).

(** A dict with string keys, in insertion order. *)
Definition pydict : Type := list (string * pyval).

Fixpoint dict_lookup (d : pydict) (key : string) : option pyval :=
  match d with
  | [] => None
  | (k, v) :: d' => if String.eqb k key then Some v else dict_lookup d' key
  end.

(** [d.get(key, default)] *)
Definition dict_get (d : pydict) (key : string) (default : pyval) : pyval :=
  match dict_lookup d key with
  | Some v => v
  | None => default
  end.

(** [d[key]] *)
Definition dict_getitem (d : pydict) (key : string) : result pyval :=
  match dict_lookup d key with
  | Some v => Ok v
  | None => Raise KeyError
  end.

(** [d[key] = v] *)
Fixpoint dict_setitem (key : string) (v : pyval) (d : pydict) : pydict :=
  match d with
  | [] => [(key, v)]
  | (k, w) :: d' =>
      if String.eqb k key then (k, v) :: d' else (k, w) :: dict_setitem key v d'
  end.

Definition default_connection : pydict :=
  [ ("DB_USER", PStr "postgres");
    ("DB_PASS", PStr "postgres");
    ("DB_HOSTNAME", PStr "localhost");
    ("DB_PORT", PInt 5432);
    ("DB_NAME", PStr "speed-blog");
    ("drivername", PStr "postgresql") ].

Definition default_pool : pydict :=
  [ ("pool_size", PInt 1);
    ("max_overflow", PInt 1);
    ("pool_timeout", PInt 30);
    ("pool_recycle", PInt 3600) ].

(** The loop over the keys of the defaults; [None] is the argument left out. *)
Definition with_defaults (defaults : pydict) (given : option pydict) : pydict :=
  match given with
  | Some g =>
      fold_left (fun params kv =>
                   dict_setitem (fst kv) (dict_get g (fst kv) (snd kv)) params)
                defaults []
  | None => defaults
  end.

(** The arguments of [sqlalchemy.engine.url.URL] and of [create_engine]. *)
Record URL : Type := mkURL {
  drivername : pyval;
  username : pyval;
  password : pyval;
  host : pyval;
  port : pyval;
  database : pyval
}.

Record Engine : Type := mkEngine {
  url : URL;
  pool_kwargs : pydict
}.

(** [create_engine] stands for sqlalchemy's two calls, [URL(...)] on the six
    keyword arguments and [create_engine] on the result and the pool
    arguments: it returns the engine or raises on the values that either
    call rejects. *)
Definition connect_pg (create_engine : URL -> pydict -> result Engine)
  (db_params pool_config : option pydict) : result Engine :=
  let params := with_defaults default_connection db_params in
  let pool_params := with_defaults default_pool pool_config in
  d <- dict_getitem params "drivername" ;;
  u <- dict_getitem params "DB_USER" ;;
  p <- dict_getitem params "DB_PASS" ;;
  h <- dict_getitem params "DB_HOSTNAME" ;;
  o <- dict_getitem params "DB_PORT" ;;
  n <- dict_getitem params "DB_NAME" ;;
  create_engine {| drivername := d; username := u; password := p;
                   host := h; port := o; database := n |}
                pool_params.

(** An option as it reaches the engine: the caller's value when the caller's
    dict has the key, the default otherwise. *)
Definition option_or_default (given : option pydict) (key : string)
  (default : pyval) : pyval :=
  match given with
  | Some g => dict_get g key default
  | None => default
  end.

(** ** Further notions *)

(** Ascending dates. *)
Definition date_le (a b : Obs) : Prop := ts_leb (date a) (date b) = true.

(** The rows of the year tables of a station that are not unit rows, each
    with the table it belongs to. *)
Definition source_rows (dfs : list raw_frame)
  : list (raw_frame * (Timestamp * list cell)) :=
  flat_map (fun f => map (pair f)
                       (filter (fun r => ne_m (raw_cell f "WVHT" (snd r))) (rrows f)))
           dfs.

(** The observation that a source row gives at loop position [index]: its
    index label as date, the floats of its [WVHT] and [DPD] cells found by
    column name in its own table. *)
Definition observed (X : Externals) (index : Z)
  (fr : raw_frame * (Timestamp * list cell)) (o : Obs) : Prop :=
  date o = fst (snd fr) /\
  astype_float X (raw_cell (fst fr) "WVHT" (snd (snd fr))) = Ok (hm0 o) /\
  astype_float X (raw_cell (fst fr) "DPD" (snd (snd fr))) = Ok (tp o) /\
  data_set_id o = index + 1.

(** Every station requested so far that was accepted has its data set. *)
Definition stored (X : Externals) (fnd : list (list available_row))
  (st : acc_state) : Prop :=
  forall i d dat,
    (i < List.length (requested st))%nat ->
    nth_error fnd i = Some d ->
    process_station X (Z.of_nat i) d = Accepted dat ->
    In (Z.of_nat i + 1, {| data := dat; data_size := size_mb X dat |}) (data_sets st).

(** A source that is interrupted while the second station is concatenated. *)
Definition ex_externals_sigint : Externals :=
  {| request_data := fun _ => Fetched [ex_table 2005; ex_table 2008];
     interrupted := fun index b => match b with
                                   | InConcat => index =? 1
                                   | InNormalize => false
                                   end;
     py_float := py_float_ex;
     memory_usage := fun d => 128 + 32 * Z.of_nat (List.length d);
     wvht_first := true |}.

(** A caller's options with a key that [connect_pg] does not know. *)
Definition ex_db_params : pydict :=
  [ ("DB_PORT", PInt 6432); ("sslmode", PStr "require") ].

(** An engine library that accepts every value. *)
Definition ex_create_engine (u : URL) (kwargs : pydict) : result Engine :=
  Ok {| url := u; pool_kwargs := kwargs |}.

(** An engine library that refuses a port that is not an integer. *)
Definition ex_create_engine_strict (u : URL) (kwargs : pydict) : result Engine :=
  match port u with
  | PInt _ => Ok {| url := u; pool_kwargs := kwargs |}
  | _ => Raise ValueError
  end.

(* ================================================================== *)
(** * Part II: properties                                              *)
(* ================================================================== *)

(** ** Lists *)

Lemma unique_In {A : Type} (eqb : A -> A -> bool)
  (Heqb : forall x y, eqb x y = true <-> x = y) (l : list A) (x : A) :
  In x (unique eqb l) <-> In x l.
Proof.
  induction l as [|a l IH]; simpl; [tauto|].
  rewrite filter_In, IH. split.
  - intros [H|[H _]]; auto.
  - intros [H|H]; auto.
    destruct (eqb a x) eqn:E.
    + left. now apply Heqb.
    + right. split; auto.
Qed.

Lemma NoDup_filter {A : Type} (p : A -> bool) (l : list A) :
  NoDup l -> NoDup (filter p l).
Proof.
  induction 1 as [|a l Hin Hnd IH]; simpl; [constructor|].
  destruct (p a); auto. constructor; auto.
  rewrite filter_In. tauto.
Qed.

Lemma unique_NoDup {A : Type} (eqb : A -> A -> bool)
  (Heqb : forall x y, eqb x y = true <-> x = y) (l : list A) :
  NoDup (unique eqb l).
Proof.
  induction l as [|a l IH]; simpl; constructor.
  - rewrite filter_In. intros [_ H].
    assert (E : eqb a a = true) by now apply Heqb.
    rewrite E in H. discriminate.
  - now apply NoDup_filter.
Qed.

Lemma years_of_distinct (d : list available_row) :
  NoDup (years_of d) /\
  forall y, In y (years_of d) <-> exists r, In r d /\ ayear r = y.
Proof.
  split.
  - apply unique_NoDup. intros; apply Z.eqb_eq.
  - intros y. unfold years_of.
    rewrite unique_In by (intros; apply Z.eqb_eq).
    rewrite in_map_iff. firstorder.
Qed.

Lemma select_found_eligible (available_buoys : list available_row)
  (buoy_ids : list string) (d : list available_row) :
  In d (select_found available_buoys buoy_ids) -> eligible available_buoys d.
Proof.
  induction buoy_ids as [|b rest IH]; cbn [select_found]; [intros []|].
  destruct (String.eqb b "41001") eqn:Eb; auto.
  destruct (year_span <=? List.length (years_of (loc_id available_buoys b)))%nat eqn:Ey; auto.
  intros [H|H]; auto. subst d.
  exists b. repeat split.
  - intros ->. now rewrite String.eqb_refl in Eb.
  - now apply Nat.leb_le.
Qed.

Lemma found_eligible (available_buoys : list available_row) (d : list available_row) :
  In d (found available_buoys) -> eligible available_buoys d.
Proof. apply select_found_eligible. Qed.

Lemma short_span_not_found (available_buoys : list available_row) (buoy_id : string) :
  (List.length (years_of (loc_id available_buoys buoy_id)) < year_span)%nat ->
  ~ In (loc_id available_buoys buoy_id) (found available_buoys).
Proof.
  intros Hshort Hin. apply found_eligible in Hin.
  destruct Hin as (b & Hd & _ & Hlen). lia.
Qed.

(** ** The dict of data sets *)

Lemma dict_set_fresh {V : Type} (key : Z) (v : V) (d : list (Z * V)) :
  Forall (fun ke => fst ke < key) d -> dict_set key v d = d ++ [(key, v)].
Proof.
  induction 1 as [|[k w] d Hk _ IH]; simpl; auto.
  simpl in Hk. destruct (k =? key) eqn:E; [apply Z.eqb_eq in E; lia|].
  now rewrite IH.
Qed.

Lemma StronglySorted_snoc (l : list Z) (k : Z) :
  StronglySorted Z.lt l -> Forall (fun x => x < k) l ->
  StronglySorted Z.lt (l ++ [k]).
Proof.
  induction 1 as [|a l Hs IH Ha]; intros Hk; simpl.
  - repeat constructor.
  - inversion Hk; subst. constructor; auto.
    apply Forall_app; split; auto.
Qed.

Lemma total_size_snoc (ds : list (Z * ds_entry)) (ke : Z * ds_entry) :
  total_size (ds ++ [ke]) = (total_size ds + data_size (snd ke))%Q.
Proof. unfold total_size. now rewrite fold_left_app. Qed.

Lemma budget_open (m : Q) :
  Qle_bool mem_desired m = false -> (m < mem_desired)%Q.
Proof.
  intros H. apply Qnot_le_lt. intros Hle.
  apply Qle_bool_iff in Hle. congruence.
Qed.

(** ** The accumulation loop *)

Section Accumulation.

Variable X : Externals.
Variable fnd : list (list available_row).

Lemma acc_inv_initial : acc_inv X fnd initial_state.
Proof.
  constructor; simpl; try constructor.
  - intros front ke back H. destruct front; discriminate.
  - lia.
  - intros H. exfalso. unfold mem_desired in H. revert H. apply Qlt_not_le. reflexivity.
Qed.

(** A station that is requested and then skipped or interrupted. *)
Lemma acc_inv_request (st : acc_state) (df : list available_row) :
  acc_inv X fnd st ->
  nth_error fnd (List.length (requested st)) = Some df ->
  (mem_used st < mem_desired)%Q ->
  acc_inv X fnd {| mem_used := mem_used st; data_sets := data_sets st;
                   requested := map filename df :: requested st |}.
Proof.
  intros [Hk Hs Ho Hm Hb Hr Hv Hstop] Hnth Hlt.
  constructor; simpl; auto.
  - eapply Forall_impl; [|exact Hk]. simpl. intros ke H. lia.
  - constructor; auto. exists df. split; auto.
    eapply nth_error_In; eauto.
  - apply nth_error_Some. congruence.
  - intros H. exfalso. revert H. now apply Qlt_not_le.
Qed.

(** A station that is requested and accepted. *)
Lemma acc_inv_store (st : acc_state) (df : list available_row) (d : list Obs) :
  acc_inv X fnd st ->
  nth_error fnd (List.length (requested st)) = Some df ->
  (mem_used st < mem_desired)%Q ->
  process_station X (Z.of_nat (List.length (requested st))) df = Accepted d ->
  acc_inv X fnd
    (store_data_set X (Z.of_nat (List.length (requested st))) d
       {| mem_used := mem_used st; data_sets := data_sets st;
          requested := map filename df :: requested st |}).
Proof.
  intros [Hk Hs Ho Hm Hb Hr Hv Hstop] Hnth Hlt Hacc.
  set (i := Z.of_nat (List.length (requested st))) in *.
  assert (Hfresh : Forall (fun ke : Z * ds_entry => fst ke < i + 1) (data_sets st)).
  { eapply Forall_impl; [|exact Hk]. simpl. intros ke H. lia. }
  unfold store_data_set; simpl.
  rewrite (dict_set_fresh _ _ _ Hfresh).
  constructor; simpl.
  - apply Forall_app; split.
    + eapply Forall_impl; [|exact Hk]. simpl. intros ke H. lia.
    + repeat constructor; simpl; lia.
  - rewrite map_app. simpl. apply StronglySorted_snoc; auto.
    apply Forall_map. exact Hfresh.
  - apply Forall_app; split; auto.
    repeat constructor. exists df. simpl.
    replace (i + 1 - 1) with i by lia. unfold i at 1.
    rewrite Nat2Z.id. auto.
  - rewrite total_size_snoc. simpl. now rewrite Hm.
  - intros front ke back H.
    destruct (exists_last (l := ke :: back)) as (b' & x & Hb'); [discriminate|].
    rewrite Hb' in H. rewrite app_assoc in H.
    apply app_inj_tail in H. destruct H as [H _].
    destruct b' as [|y b'].
    + simpl in Hb'. rewrite app_nil_r in H. subst front. now rewrite <- Hm.
    + simpl in Hb'. injection Hb' as -> _. eapply Hb. eauto.
  - constructor; auto. exists df. split; auto.
    eapply nth_error_In; eauto.
  - apply nth_error_Some. congruence.
  - intros _. eexists _, _, _. split; [reflexivity|]. unfold i. lia.
Qed.

Lemma gather_inv (l pre : list (list available_row)) (st : acc_state) :
  fnd = pre ++ l ->
  List.length (requested st) = List.length pre ->
  acc_inv X fnd st ->
  acc_inv X fnd (gather X (enumerate_from (Z.of_nat (List.length pre)) l) st).
Proof.
  revert pre st. induction l as [|df l IH]; intros pre st Hfnd Hlen Hinv; simpl; auto.
  destruct (Qle_bool mem_desired (mem_used st)) eqn:Hbudget; auto.
  apply budget_open in Hbudget.
  assert (Hnth : nth_error fnd (List.length (requested st)) = Some df).
  { rewrite Hfnd, Hlen, nth_error_app2, Nat.sub_diag by lia. reflexivity. }
  assert (Hnext : Z.of_nat (List.length pre) + 1 = Z.of_nat (List.length (pre ++ [df]))).
  { rewrite length_app. simpl. lia. }
  rewrite <- Hlen.
  destruct (process_station X (Z.of_nat (List.length (requested st))) df) eqn:Hp.
  - now apply acc_inv_request.
  - rewrite Hlen, Hnext. apply IH.
    + now rewrite <- app_assoc.
    + simpl. rewrite length_app. simpl. lia.
    + now apply acc_inv_request.
  - rewrite Hlen, Hnext. apply IH.
    + now rewrite <- app_assoc.
    + simpl. rewrite length_app. simpl. lia.
    + rewrite <- Hlen. now apply acc_inv_store.
Qed.

End Accumulation.

Lemma accumulate_inv (X : Externals) (available_buoys : list available_row) :
  acc_inv X (found available_buoys) (accumulate X available_buoys).
Proof.
  unfold accumulate, enumerate.
  apply (gather_inv X (found available_buoys) (found available_buoys) [] initial_state);
    auto using acc_inv_initial.
Qed.

Lemma process_station_ids (X : Externals) (index : Z) (df : list available_row)
  (d : list Obs) :
  process_station X index df = Accepted d ->
  Forall (fun o => data_set_id o = index + 1) d.
Proof.
  unfold process_station.
  destruct (request_data X (map filename df)); try discriminate.
  destruct (interrupted X index InConcat); try discriminate.
  destruct (pd_concat tables); try discriminate.
  destruct (interrupted X index InNormalize); try discriminate.
  destruct (normalize X a); try discriminate.
  intros [= <-]. unfold finalize. apply Forall_map. now apply Forall_forall.
Qed.

(** C7. A station whose distinct years of available data number fewer than
    [year_span] (10) is not in [found]; every call to [request_data] and every
    accumulated data set comes from a group of [found], each of which passed
    the year-span test, so such a station is never fetched and never shows up
    among the data sets. *)
Theorem short_span_station_never_accumulated
  (X : Externals) (available_buoys : list available_row) (buoy_id : string) :
  (List.length (years_of (loc_id available_buoys buoy_id)) < year_span)%nat ->
  let st := accumulate X available_buoys in
  ~ In (loc_id available_buoys buoy_id) (found available_buoys) /\
  (forall fs, In fs (requested st) ->
     exists d, In d (found available_buoys) /\ eligible available_buoys d /\
               d <> loc_id available_buoys buoy_id /\ fs = map filename d) /\
  (forall k e, In (k, e) (data_sets st) ->
     exists d, nth_error (found available_buoys) (Z.to_nat (k - 1)) = Some d /\
               eligible available_buoys d /\
               d <> loc_id available_buoys buoy_id /\
               process_station X (k - 1) d = Accepted (data e)).
Proof.
  intros Hshort st.
  pose proof (short_span_not_found _ _ Hshort) as Hnot.
  pose proof (accumulate_inv X available_buoys) as Hinv. fold st in Hinv.
  split; [exact Hnot|]. split.
  - intros fs Hfs.
    pose proof (inv_requested _ _ _ Hinv) as Hr.
    rewrite Forall_forall in Hr. destruct (Hr fs Hfs) as (d & Hd & ->).
    exists d. repeat split; auto using found_eligible.
    intros ->. contradiction.
  - intros k e Hke.
    pose proof (inv_origin _ _ _ Hinv) as Ho.
    rewrite Forall_forall in Ho. destruct (Ho (k, e) Hke) as (d & Hd & Hp & _).
    simpl in *. exists d.
    assert (Hin : In d (found available_buoys)) by (eapply nth_error_In; eauto).
    repeat split; auto using found_eligible.
    intros ->. contradiction.
Qed.

(** Station 51001 of the example has three years of data. *)
Lemma short_span_station_never_accumulated_witness :
  (List.length (years_of (loc_id ex_available "51001")) < year_span)%nat /\
  ~ In (loc_id ex_available "51001") (found ex_available).
Proof.
  assert (H : (List.length (years_of (loc_id ex_available "51001")) < year_span)%nat).
  { apply Nat.ltb_lt. vm_compute. reflexivity. }
  split; [exact H|].
  exact (proj1 (short_span_station_never_accumulated ex_externals ex_available "51001" H)).
Defined.

(** C3, as stated, fails: with two eligible stations of which the first cannot
    be fetched, the only data set gets identifier 2, so the identifiers are
    not 1, ..., n. *)
Lemma identifiers_not_contiguous :
  let keys := map fst (data_sets (accumulate ex_externals ex_available)) in
  keys = [2] /\ keys <> map Z.of_nat (seq 1 (List.length keys)).
Proof. vm_compute. split; [reflexivity|discriminate]. Qed.

(** C3, amended. The identifier of a data set is the 1-based position of its
    station in the list of eligible stations: identifiers strictly increase in
    the order of acceptance, lie between 1 and the number of eligible
    stations, and are carried by every row of the data set; a station that is
    skipped uses up its position, whose identifier is then given to no data
    set. *)
Theorem identifiers_follow_loop_position
  (X : Externals) (available_buoys : list available_row) :
  let st := accumulate X available_buoys in
  StronglySorted Z.lt (map fst (data_sets st)) /\
  (forall k e, In (k, e) (data_sets st) ->
     1 <= k <= Z.of_nat (List.length (found available_buoys)) /\
     (exists d, nth_error (found available_buoys) (Z.to_nat (k - 1)) = Some d /\
                process_station X (k - 1) d = Accepted (data e)) /\
     Forall (fun o => data_set_id o = k) (data e)) /\
  (forall i d, nth_error (found available_buoys) i = Some d ->
     process_station X (Z.of_nat i) d = Continue ->
     ~ In (Z.of_nat i + 1) (map fst (data_sets st))).
Proof.
  intros st.
  pose proof (accumulate_inv X available_buoys) as Hinv. fold st in Hinv.
  pose proof (inv_origin _ _ _ Hinv) as Ho. rewrite Forall_forall in Ho.
  pose proof (inv_keys _ _ _ Hinv) as Hk. rewrite Forall_forall in Hk.
  split; [apply (inv_sorted _ _ _ Hinv)|]. split.
  - intros k e Hke.
    destruct (Ho _ Hke) as (d & Hd & Hp & _). specialize (Hk _ Hke).
    simpl in *. split; [|split].
    + pose proof (inv_visited _ _ _ Hinv). lia.
    + eauto.
    + apply process_station_ids in Hp.
      eapply Forall_impl; [|exact Hp]. simpl. intros o Ho'. lia.
  - intros i d Hd Hskip Hin.
    apply in_map_iff in Hin. destruct Hin as ([k e] & Hk' & Hke). simpl in Hk'. subst k.
    destruct (Ho _ Hke) as (d' & Hd' & Hp & _). simpl in *.
    replace (Z.of_nat i + 1 - 1) with (Z.of_nat i) in * by lia.
    rewrite Nat2Z.id in Hd'. congruence.
Qed.

(** C5. The running total is the sum of the sizes of the accumulated data
    sets; every data set was added while the total of those before it was
    below [mem_desired] (500), so the final total is below the budget plus the
    size of the last data set added; and once the total has reached the
    budget, the data set that crossed it is kept whole and is the last station
    that was requested. *)
Theorem budget_overshoot_bounded
  (X : Externals) (available_buoys : list available_row) :
  let st := accumulate X available_buoys in
  mem_used st = total_size (data_sets st) /\
  (forall front ke back,
     data_sets st = front ++ ke :: back -> (total_size front < mem_desired)%Q) /\
  (forall front ke,
     data_sets st = front ++ [ke] ->
     (mem_used st < mem_desired + data_size (snd ke))%Q) /\
  ((mem_desired <= mem_used st)%Q ->
   exists front k e d,
     data_sets st = front ++ [(k, e)] /\
     k = Z.of_nat (List.length (requested st)) /\
     nth_error (found available_buoys) (Z.to_nat (k - 1)) = Some d /\
     process_station X (k - 1) d = Accepted (data e) /\
     data_size e = size_mb X (data e)).
Proof.
  intros st.
  pose proof (accumulate_inv X available_buoys) as Hinv. fold st in Hinv.
  split; [apply (inv_mem _ _ _ Hinv)|].
  split; [apply (inv_below _ _ _ Hinv)|]. split.
  - intros front ke Hds.
    rewrite (inv_mem _ _ _ Hinv), Hds, total_size_snoc.
    pose proof (inv_below _ _ _ Hinv front ke [] Hds) as Hlt.
    apply Qplus_lt_l. exact Hlt.
  - intros Hfull.
    destruct (inv_stop _ _ _ Hinv Hfull) as (front & k & e & Hds & Hk).
    pose proof (inv_origin _ _ _ Hinv) as Ho. rewrite Forall_forall in Ho.
    destruct (Ho (k, e)) as (d & Hd & Hp & Hsz).
    { rewrite Hds. apply in_or_app. right. now left. }
    exists front, k, e, d. auto.
Qed.

(** With 300 MB per data set the second data set crosses the budget and the
    third eligible station is not requested. *)
Example budget_stops_accumulation :
  let st := accumulate ex_externals_large (ex_available ++ ex_years "46050" 1995 12) in
  List.length (found (ex_available ++ ex_years "46050" 1995 12)) = 3%nat /\
  map fst (data_sets st) = [1; 2] /\
  (mem_used st == 600)%Q /\
  List.length (requested st) = 2%nat.
Proof. vm_compute. repeat split; reflexivity. Qed.

(** ** The result monad *)

Lemma mapM_Ok {A B : Type} (f : A -> result B) (l : list A) (bs : list B) :
  mapM f l = Ok bs <-> Forall2 (fun a b => f a = Ok b) l bs.
Proof.
  revert bs. induction l as [|a l IH]; intros bs; simpl.
  - split.
    + intros [= <-]. constructor.
    + intros H. inversion H. reflexivity.
  - destruct (f a) as [b|e] eqn:Ea; simpl.
    + destruct (mapM f l) as [bs'|e] eqn:El; simpl.
      * split.
        -- intros [= <-]. constructor; auto. now apply IH.
        -- intros H. inversion H as [|? b' ? bs'' Hb Hbs]; subst.
           apply IH in Hbs. congruence.
      * split; [discriminate|].
        intros H. inversion H as [|? b' ? bs'' Hb Hbs]; subst.
        apply IH in Hbs. discriminate.
    + split; [discriminate|].
      intros H. inversion H; subst. congruence.
Qed.

Lemma mapM_Raise {A B : Type} (f : A -> result B) (l : list A) :
  Exists (fun a => exists e, f a = Raise e) l -> exists e, mapM f l = Raise e.
Proof.
  induction 1 as [a l [e Ha]|a l _ [e IH]]; simpl.
  - rewrite Ha. simpl. eauto.
  - destruct (f a); simpl; eauto. rewrite IH. simpl. eauto.
Qed.

Lemma mapM_map_Ok {A B : Type} (f : A -> result B) (g : A -> B) (l : list A) :
  (forall a, In a l -> f a = Ok (g a)) -> mapM f l = Ok (map g l).
Proof.
  induction l as [|a l IH]; intros H; simpl; auto.
  rewrite (H a) by now left. simpl. rewrite IH; auto.
  intros a' Ha'. apply H. now right.
Qed.

(** ** Normalisation *)

Lemma insert_sorted_perm {A : Type} (r : Timestamp * A) (l : list (Timestamp * A)) :
  Permutation (insert_sorted r l) (r :: l).
Proof.
  induction l as [|r' l IH]; simpl; auto.
  destruct (ts_leb (fst r) (fst r')); auto.
  rewrite IH. apply perm_swap.
Qed.

Lemma sort_index_perm {A : Type} (l : list (Timestamp * A)) :
  Permutation (sort_index l) l.
Proof.
  induction l as [|r l IH]; simpl; auto.
  unfold sort_index in *. simpl. rewrite insert_sorted_perm. now constructor.
Qed.

(** C4, as stated, fails: a table with one good row and one row whose [WVHT]
    is the text [MM] is not reduced to its good row, as the row-level policy
    would have it; the coercion raises and the station is skipped. *)
Lemma bad_row_skips_whole_station :
  normalize_row_level ex_externals_bad ex_bad_table
    = [(ts 2005 1 1, (Some 1.5%Q, Some 8%Q))] /\
  normalize ex_externals_bad ex_bad_table = Raise ValueError /\
  process_station ex_externals_bad 0 (ex_years "44013" 2000 10) = Continue /\
  data_sets (accumulate ex_externals_bad ex_available) = [].
Proof. vm_compute. repeat split; reflexivity. Qed.

(** C4, amended. Normalisation drops the rows whose [WVHT] is the unit marker
    [m] and nothing else: when every remaining row coerces, the data set is
    made of exactly those rows (in index order); when one remaining row has a
    [WVHT] or [DPD] that does not coerce, normalisation raises and the whole
    station is skipped. *)
Theorem unit_rows_dropped_else_station_skipped (X : Externals) (data : raw_frame) :
  let kept := filter (fun r => ne_m (raw_cell data "WVHT" (snd r))) (rrows data) in
  (forall rows,
     normalize X data = Ok rows ->
     exists floats,
       Forall2 (fun r fr => astype_row X data r = Ok fr) kept floats /\
       Permutation rows floats) /\
  (forall floats,
     index_of "WVHT" (rcolumns data) <> None ->
     index_of "DPD" (rcolumns data) <> None ->
     Forall2 (fun r fr => astype_row X data r = Ok fr) kept floats ->
     normalize X data = Ok (sort_index floats)) /\
  (Exists (fun r => exists e, astype_row X data r = Raise e) kept ->
     (exists e, normalize X data = Raise e) /\
     forall index df dfs,
       request_data X (map filename df) = Fetched dfs ->
       pd_concat dfs = Ok data ->
       interrupted X index InConcat = false ->
       interrupted X index InNormalize = false ->
       process_station X index df = Continue).
Proof.
  intros kept. unfold normalize. fold kept. split; [|split].
  - intros rows.
    destruct (index_of "WVHT" (rcolumns data)); simpl; [|discriminate].
    destruct (required_present X data); simpl; [|discriminate].
    destruct (mapM (astype_row X data) kept) as [floats|e] eqn:E; simpl; [|discriminate].
    intros [= <-]. exists floats. split.
    + now apply mapM_Ok.
    + apply sort_index_perm.
  - intros floats Hw Hd Hall. apply mapM_Ok in Hall.
    unfold required_present, REQUIRED_COLUMNS.
    destruct (wvht_first X); cbn [mapM bind];
      (destruct (index_of "WVHT" (rcolumns data)); [|congruence]);
      (destruct (index_of "DPD" (rcolumns data)); [|congruence]);
      cbn [bind]; now rewrite Hall.
  - intros Hbad. apply mapM_Raise in Hbad. destruct Hbad as [e He].
    assert (Hn : exists e',
      (_ <- match index_of "WVHT" (rcolumns data) with
            | Some i => Ok i
            | None => Raise KeyError
            end ;;
       _ <- required_present X data ;;
       floats <- mapM (astype_row X data) kept ;;
       Ok (sort_index floats)) = Raise e').
    { destruct (index_of "WVHT" (rcolumns data)); simpl; eauto.
      destruct (required_present X data); simpl; eauto.
      rewrite He. simpl. eauto. }
    split; [exact Hn|].
    intros index df dfs Hfetch Hcat Hi1 Hi2. unfold process_station.
    rewrite Hfetch, Hcat, Hi1, Hi2.
    destruct Hn as [e' He']. unfold normalize. fold kept. now rewrite He'.
Qed.

(** ** Sampling *)

Lemma drop_nth_incl {A : Type} (j : nat) (l : list A) (x : A) :
  In x (drop_nth j l) -> In x l.
Proof.
  revert j. induction l as [|a l IH]; intros [|j]; simpl; auto.
  intros [H|H]; eauto.
Qed.

Lemma drop_nth_length {A : Type} (j : nat) (l : list A) :
  (j < List.length l)%nat -> List.length (drop_nth j l) = pred (List.length l).
Proof.
  revert j. induction l as [|a l IH]; intros [|j]; simpl; try lia.
  intros H. rewrite IH by lia. destruct l; simpl in *; lia.
Qed.

Lemma drop_nth_fresh {A : Type} (j : nat) (l : list A) (d : A) :
  NoDup l -> (j < List.length l)%nat -> ~ In (nth j l d) (drop_nth j l).
Proof.
  intros Hnd. revert j. induction Hnd as [|a l Ha Hnd IH]; intros [|j]; simpl; try lia.
  - auto.
  - intros Hj [H|H].
    + apply Ha. rewrite H. apply nth_In. lia.
    + apply (IH j); auto. lia.
Qed.

Lemma py_range_In (a b x : Z) : In x (py_range a b) <-> a <= x < b.
Proof.
  unfold py_range. rewrite in_map_iff. split.
  - intros (i & <- & Hi). apply in_seq in Hi. lia.
  - intros H. exists (Z.to_nat (x - a)). split; [lia|]. apply in_seq. lia.
Qed.

Lemma py_range_NoDup (a b : Z) : NoDup (py_range a b).
Proof.
  unfold py_range. apply Injective_map_NoDup; [|apply seq_NoDup].
  intros i j H. lia.
Qed.

Lemma py_range_length (a b : Z) : List.length (py_range a b) = Z.to_nat (b - a).
Proof. unfold py_range. now rewrite length_map, length_seq. Qed.

(** Two draws give two different members of the population. *)
Lemma sample_two (draw : nat -> nat) (pos : nat) (pool : list Z) :
  NoDup pool -> (2 <= List.length pool)%nat ->
  exists x y, sample_loop draw pos pool 2 = [x; y] /\
              In x pool /\ In y pool /\ x <> y.
Proof.
  intros Hnd Hlen. simpl.
  set (j := (draw pos mod List.length pool)%nat).
  assert (Hj : (j < List.length pool)%nat) by (apply Nat.mod_upper_bound; lia).
  set (pool' := drop_nth j pool).
  assert (Hlen' : List.length pool' = pred (List.length pool)) by now apply drop_nth_length.
  set (j' := (draw (S pos) mod List.length pool')%nat).
  assert (Hj' : (j' < List.length pool')%nat) by (apply Nat.mod_upper_bound; lia).
  exists (nth j pool 0), (nth j' pool' 0). repeat split.
  - now apply nth_In.
  - apply (drop_nth_incl j). now apply nth_In.
  - intros Heq. apply (drop_nth_fresh j pool 0 Hnd Hj).
    rewrite Heq. now apply nth_In.
Qed.

Lemma build_request_window (draw : nat -> nat) (pos : nat) (i : Z)
  (mn mx : Timestamp) (r : request) :
  build_request draw pos (i, Some mn, Some mx) = Ok r ->
  rid r = i /\
  year mn <= start_year r /\ start_year r < end_year r /\ end_year r < year mx.
Proof.
  unfold build_request, random_sample. cbn [year_attr bind].
  destruct (2 <=? List.length (py_range (year mn) (year mx)))%nat eqn:Hlen;
    [|discriminate].
  apply Nat.leb_le in Hlen.
  destruct (sample_two draw pos _ (py_range_NoDup (year mn) (year mx)) Hlen)
    as (x & y & Hs & Hx & Hy & Hxy).
  cbn [bind]. rewrite Hs. cbn [py_min py_max bind fold_left].
  intros [= <-]. simpl.
  apply py_range_In in Hx, Hy. lia.
Qed.

Lemma build_request_narrow (draw : nat -> nat) (pos : nat)
  (d : Z * option Timestamp * option Timestamp) :
  narrow d -> build_request draw pos d = Raise ValueError.
Proof.
  destruct d as [[i [mn|]] [mx|]]; simpl; try tauto.
  intros H. unfold build_request, random_sample. cbn [year_attr bind].
  rewrite py_range_length.
  replace (2 <=? Z.to_nat (year mx - year mn))%nat with false; auto.
  symmetry. apply Nat.leb_gt. lia.
Qed.

Lemma build_request_wide (draw : nat -> nat) (pos : nat) (i : Z) (mn mx : Timestamp) :
  2 <= year mx - year mn ->
  exists r, build_request draw pos (i, Some mn, Some mx) = Ok r.
Proof.
  intros H. unfold build_request, random_sample. cbn [year_attr bind].
  assert (Hlen : (2 <= List.length (py_range (year mn) (year mx)))%nat)
    by (rewrite py_range_length; lia).
  destruct (sample_two draw pos _ (py_range_NoDup (year mn) (year mx)) Hlen)
    as (x & y & Hs & _).
  apply Nat.leb_le in Hlen. rewrite Hlen. cbn [bind]. rewrite Hs.
  cbn [py_min py_max bind fold_left]. eauto.
Qed.

(** ** The lines of [req_info] *)

Lemma fold_combine_Some (f : Timestamp -> Timestamp -> Timestamp)
  (l : list (option Timestamp)) (x : Timestamp) :
  exists y, fold_left (opt_combine f) l (Some x) = Some y.
Proof.
  revert x. induction l as [|[t|] l IH]; intros x; simpl; eauto.
Qed.

Lemma insert_by_perm (rank : Z -> Z) (i : Z) (l : list Z) :
  Permutation (insert_by rank i l) (i :: l).
Proof.
  induction l as [|j l IH]; simpl; auto.
  destruct (rank i <=? rank j); auto.
  rewrite IH. apply perm_swap.
Qed.

Lemma order_by_perm (rank : Z -> Z) (l : list Z) : Permutation (order_by rank l) l.
Proof.
  induction l as [|i l IH]; simpl; auto.
  unfold order_by in *. simpl. rewrite insert_by_perm. now constructor.
Qed.

Lemma req_query_dated (c : DB) (d : Z * option Timestamp * option Timestamp) :
  In d (req_query c) -> exists i mn mx, d = (i, Some mn, Some mx).
Proof.
  unfold req_query. rewrite in_map_iff. intros (i & <- & Hi).
  apply (Permutation_in _ (order_by_perm _ _)) in Hi.
  rewrite unique_In in Hi by (intros; apply Z.eqb_eq).
  apply in_map_iff in Hi. destruct Hi as (r & Hr & Hin).
  assert (Hq : In r (row_q c i)).
  { unfold row_q. apply filter_In. split; auto. now apply Z.eqb_eq. }
  destruct (row_q c i) as [|r0 rows]; [destruct Hq|].
  unfold series_min, series_max. simpl.
  destruct (fold_combine_Some ts_min (map (fun r => Some (date r)) rows) (date r0)) as [mn ->].
  destruct (fold_combine_Some ts_max (map (fun r => Some (date r)) rows) (date r0)) as [mx ->].
  eauto.
Qed.

Lemma build_requests_narrow (draw : nat -> nat)
  (info : list (Z * option Timestamp * option Timestamp)) (pos : nat) :
  Forall (fun d => exists i mn mx, d = (i, Some mn, Some mx)) info ->
  Exists narrow info ->
  build_requests draw pos info = Raise ValueError.
Proof.
  intros Hall. revert pos. induction Hall as [|d info Hd Hall IH]; intros pos Hex.
  - inversion Hex.
  - simpl. destruct Hd as (i & mn & mx & ->).
    destruct (Z_lt_le_dec (year mx - year mn) 2) as [Hn|Hw].
    + rewrite (build_request_narrow draw pos (i, Some mn, Some mx)); auto.
    + destruct (build_request_wide draw pos i mn mx Hw) as [r ->]. cbn [bind].
      inversion Hex as [? ? Hn|? ? Hrest]; subst.
      * simpl in Hn. lia.
      * now rewrite IH.
Qed.

Lemma build_requests_wide (draw : nat -> nat)
  (info : list (Z * option Timestamp * option Timestamp)) (pos : nat) :
  Forall (fun d => exists i mn mx, d = (i, Some mn, Some mx) /\ 2 <= year mx - year mn) info ->
  exists requests, build_requests draw pos info = Ok requests.
Proof.
  intros Hall. revert pos. induction Hall as [|d info Hd Hall IH]; intros pos; simpl; eauto.
  destruct Hd as (i & mn & mx & -> & Hw).
  destruct (build_request_wide draw pos i mn mx Hw) as [r ->]. cbn [bind].
  destruct (IH (pos + 2)%nat) as [rs ->]. cbn [bind]. eauto.
Qed.

(** C8. Every request that the harness builds lies inside the observed span
    of its data set: with [minYear] and [maxYear] the years of the least and
    the greatest date of the data set,
    [minYear <= start_year < end_year < maxYear]. *)
Theorem window_inside_span (draw : nat -> nat) (c : DB) (requests : list request) :
  build_requests draw 0 (req_query c) = Ok requests ->
  Forall2 (fun d r => exists mn mx,
             d = (rid r, Some mn, Some mx) /\
             year mn <= start_year r /\ start_year r < end_year r /\
             end_year r < year mx)
          (req_query c) requests.
Proof.
  pose proof (req_query_dated c) as Hdated.
  generalize dependent requests. generalize 0%nat as pos.
  induction (req_query c) as [|d info IH]; intros pos requests; simpl.
  - intros [= <-]. constructor.
  - destruct (Hdated d (or_introl eq_refl)) as (i & mn & mx & ->).
    destruct (build_request draw pos (i, Some mn, Some mx)) as [r|e] eqn:Er;
      [|discriminate].
    cbn [bind].
    destruct (build_requests draw (pos + 2) info) as [rs|e] eqn:Ers; [|discriminate].
    cbn [bind]. intros [= <-].
    apply build_request_window in Er. destruct Er as (<- & Hlo & Hmid & Hhi).
    constructor.
    + exists mn, mx. auto.
    + eapply IH; eauto. intros d' Hd'. apply Hdated. now right.
Qed.

(** The request built for the example store. *)
Lemma window_inside_span_witness :
  build_requests ex_draw 0 (req_query ex_db_mismatch)
    = Ok [ {| rid := 1; start_year := 2005; end_year := 2006 |} ] /\
  Forall2 (fun d r => exists mn mx,
             d = (rid r, Some mn, Some mx) /\
             year mn <= start_year r /\ start_year r < end_year r /\
             end_year r < year mx)
          (req_query ex_db_mismatch)
          [ {| rid := 1; start_year := 2005; end_year := 2006 |} ].
Proof.
  assert (H : build_requests ex_draw 0 (req_query ex_db_mismatch)
              = Ok [ {| rid := 1; start_year := 2005; end_year := 2006 |} ])
    by (vm_compute; reflexivity).
  split; [exact H|].
  exact (window_inside_span ex_draw ex_db_mismatch _ H).
Defined.

(** C10. When the years of the least and the greatest date of some data set
    of the row table differ by less than two, [random.sample] raises a
    [ValueError] while the requests are built: the run ends there, before the
    first query of either loop, and writes no report. *)
Theorem narrow_span_aborts_run (csv_float : Q -> Q) (draw : nat -> nat) (c : DB) :
  Exists narrow (req_query c) ->
  build_requests draw 0 (req_query c) = Raise ValueError /\
  run_harness csv_float draw c = {| written := []; raised := Some ValueError |}.
Proof.
  intros Hex.
  assert (H : build_requests draw 0 (req_query c) = Raise ValueError).
  { apply build_requests_narrow; auto.
    apply Forall_forall. apply req_query_dated. }
  split; auto. unfold run_harness. now rewrite H.
Qed.

(** A store whose only data set lies within 2005. *)
Lemma narrow_span_aborts_run_witness :
  Exists narrow (req_query ex_db_one_year) /\
  run_harness exact_csv_float ex_draw ex_db_one_year
    = {| written := []; raised := Some ValueError |}.
Proof.
  assert (H : Exists narrow (req_query ex_db_one_year)).
  { apply Exists_cons_hd. vm_compute. reflexivity. }
  split; [exact H|].
  exact (proj2 (narrow_span_aborts_run exact_csv_float ex_draw ex_db_one_year H)).
Defined.

(** The converse: when every data set spans at least two sampleable years the
    requests are built. *)
Lemma wide_spans_build_requests (draw : nat -> nat) (c : DB) :
  ~ Exists narrow (req_query c) ->
  exists requests, build_requests draw 0 (req_query c) = Ok requests.
Proof.
  intros Hno. apply build_requests_wide.
  apply Forall_forall. intros d Hd.
  destruct (req_query_dated c d Hd) as (i & mn & mx & ->).
  exists i, mn, mx. split; auto.
  destruct (Z_lt_le_dec (year mx - year mn) 2) as [Hn|Hw]; auto.
  exfalso. apply Hno. apply Exists_exists. eexists. split; [exact Hd|exact Hn].
Qed.

(** ** The benchmark loops *)

Lemma full_scan_from_split (P : Q -> Q) (c : DB) (ids : list Z) (lr : data_log (list Z))
  (lb : data_log Z) :
  full_scan_from P c ids (lr, lb) =
  (lb' <- binary_log_full P c ids lb ;;
   Ok (fold_left (fun lg i => log_measure lg (measure_rows (row_q c i))) ids lr, lb')).
Proof.
  revert lr lb. induction ids as [|i ids IH]; intros lr lb; simpl; auto.
  destruct (measure_binary_full P c i) as [m|e]; simpl; auto.
Qed.

Lemma filtered_scan_from_split (P : Q -> Q) (c : DB) (requests : list request)
  (lr : data_log (list Z)) (lb : data_log Z) :
  filtered_scan_from P c requests (lr, lb) =
  (lb' <- binary_log_filtered P c requests lb ;;
   Ok (fold_left (fun lg param =>
                    log_measure lg (measure_rows (row_q_filtered c param)))
                 requests lr, lb')).
Proof.
  revert lr lb. induction requests as [|p requests IH]; intros lr lb; simpl; auto.
  destruct (measure_binary_filtered P c p) as [m|e]; simpl; auto.
Qed.

Lemma binary_log_full_ext (P : Q -> Q) (c c' : DB) (ids : list Z) (lg : data_log Z) :
  binary_data c' = binary_data c ->
  binary_log_full P c' ids lg = binary_log_full P c ids lg.
Proof.
  intros H. revert lg. induction ids as [|i ids IH]; intros lg; simpl; auto.
  unfold measure_binary_full, binary_q. rewrite H.
  destruct (first_row _); simpl; auto.
  destruct (read_csv _); simpl; auto.
  destruct (column "date" _); simpl; auto.
  destruct (to_datetime _); simpl; auto.
  destruct (column "tp" _); simpl; auto.
  destruct (series_sum _); simpl; auto.
Qed.

Lemma binary_log_filtered_ext (P : Q -> Q) (c c' : DB) (requests : list request) (lg : data_log Z) :
  binary_data c' = binary_data c ->
  binary_log_filtered P c' requests lg = binary_log_filtered P c requests lg.
Proof.
  intros H. revert lg. induction requests as [|p requests IH]; intros lg; simpl; auto.
  unfold measure_binary_filtered, binary_q. rewrite H.
  destruct (first_row _); simpl; auto.
  destruct (read_csv _); simpl; auto.
  destruct (column "date" _); simpl; auto.
  destruct (to_datetime _); simpl; auto.
  destruct (column "tp" _); simpl; auto.
  destruct (series_sum _); simpl; auto.
Qed.

(** C1, as stated, fails: in a store where the rows of data set 1 add up to a
    [tp] of 17 and its blob to 16 (and, within the sampled years, to 9 and 8),
    the run raises nothing and writes its four reports as for any other
    store. *)
Lemma mismatch_passes_silently :
  tp_sum_of (measure_rows (row_q ex_db_mismatch 1)) = 17%Q /\
  (exists m, measure_binary_full exact_csv_float ex_db_mismatch 1 = Ok m /\
             tp_sum_of m = 16%Q) /\
  raised (run_harness exact_csv_float ex_draw ex_db_mismatch) = None /\
  map report_name (written (run_harness exact_csv_float ex_draw ex_db_mismatch))
    = ["all_years_rows.csv"; "all_years_binary.csv";
       "filtered_years_rows.csv"; "filtered_years_binary.csv"].
Proof.
  split; [vm_compute; reflexivity|]. split.
  - eexists. split; vm_compute; reflexivity.
  - split; vm_compute; reflexivity.
Qed.

(** ** Reading a blob that is not there *)

Lemma binary_q_none (c : DB) (i : Z) :
  (forall b, In b (binary_data c) -> b_data_set_id b <> i) <-> binary_q c i = [].
Proof.
  unfold binary_q. split.
  - intros H. induction (binary_data c) as [|b l IH]; simpl; auto.
    destruct (b_data_set_id b =? i) eqn:E.
    + apply Z.eqb_eq in E. exfalso. apply (H b); simpl; auto.
    + apply IH. intros b' Hb'. apply H. now right.
  - intros H b Hb Hi.
    assert (Hin : In b (filter (fun b => b_data_set_id b =? i) (binary_data c))).
    { apply filter_In. split; auto. now apply Z.eqb_eq. }
    rewrite H in Hin. destruct Hin.
Qed.

Lemma binary_log_full_first_failure (P : Q -> Q) (c : DB) (pre post : list Z) (i : Z) (e : exn)
  (lg : data_log Z) :
  (forall j, In j pre -> exists m, measure_binary_full P c j = Ok m) ->
  measure_binary_full P c i = Raise e ->
  binary_log_full P c (pre ++ i :: post) lg = Raise e.
Proof.
  revert lg. induction pre as [|j pre IH]; intros lg Hpre Hi; simpl.
  - now rewrite Hi.
  - destruct (Hpre j (or_introl eq_refl)) as [m ->]. simpl.
    apply IH; auto. intros j' Hj'. apply Hpre. now right.
Qed.

Lemma binary_log_full_failure (P : Q -> Q) (c : DB) (ids : list Z) (i : Z) (e : exn)
  (lg : data_log Z) :
  In i ids -> measure_binary_full P c i = Raise e ->
  exists e', binary_log_full P c ids lg = Raise e'.
Proof.
  revert lg. induction ids as [|j ids IH]; intros lg Hin Hi; simpl.
  - destruct Hin.
  - destruct Hin as [->|Hin].
    + rewrite Hi. simpl. eauto.
    + destruct (measure_binary_full P c j); simpl; eauto.
Qed.

Lemma binary_log_filtered_failure (P : Q -> Q) (c : DB) (requests : list request) (p : request)
  (e : exn) (lg : data_log Z) :
  In p requests -> measure_binary_filtered P c p = Raise e ->
  exists e', binary_log_filtered P c requests lg = Raise e'.
Proof.
  revert lg. induction requests as [|q requests IH]; intros lg Hin Hp; simpl.
  - destruct Hin.
  - destruct Hin as [->|Hin].
    + rewrite Hp. simpl. eauto.
    + destruct (measure_binary_filtered P c q); simpl; eauto.
Qed.

(** C9. When the blob table holds no record for an identifier, reading its
    blob raises [IndexError] at [res[0]], in the full scan and in the filtered
    scan alike; a loop that queries the identifier does not complete, and the
    full scan ends with that [IndexError] if the blobs of the identifiers
    before it could be read.  With the identifier among the hard-coded 1..57
    no run completes: a run whose requests were built and whose earlier blobs
    could be read ends with [IndexError] and writes no report. *)
Theorem missing_blob_raises_index_error (P : Q -> Q) (c : DB) (i : Z) :
  (forall b, In b (binary_data c) -> b_data_set_id b <> i) ->
  measure_binary_full P c i = Raise IndexError /\
  (forall param, rid param = i ->
     measure_binary_filtered P c param = Raise IndexError) /\
  (forall ids, In i ids -> exists e, full_scan P c ids = Raise e) /\
  (forall pre post,
     (forall j, In j pre -> exists m, measure_binary_full P c j = Ok m) ->
     full_scan P c (pre ++ i :: post) = Raise IndexError) /\
  (forall requests param, In param requests -> rid param = i ->
     exists e, filtered_scan P c requests = Raise e) /\
  (In i availabe_ids -> forall draw, raised (run_harness P draw c) <> None) /\
  (forall draw requests pre post,
     build_requests draw 0 (req_query c) = Ok requests ->
     availabe_ids = pre ++ i :: post ->
     (forall j, In j pre -> exists m, measure_binary_full P c j = Ok m) ->
     run_harness P draw c = {| written := []; raised := Some IndexError |}).
Proof.
  intros Hnone. apply binary_q_none in Hnone.
  assert (Hfull : measure_binary_full P c i = Raise IndexError).
  { unfold measure_binary_full. now rewrite Hnone. }
  assert (Hfilt : forall param, rid param = i ->
                    measure_binary_filtered P c param = Raise IndexError).
  { intros param <-. unfold measure_binary_filtered. now rewrite Hnone. }
  assert (Hscan : forall ids, In i ids -> exists e, full_scan P c ids = Raise e).
  { intros ids Hin. unfold full_scan. rewrite full_scan_from_split.
    destruct (binary_log_full_failure P c ids i _ empty_log Hin Hfull) as [e ->].
    simpl. eauto. }
  assert (Hfirst : forall pre post,
            (forall j, In j pre -> exists m, measure_binary_full P c j = Ok m) ->
            full_scan P c (pre ++ i :: post) = Raise IndexError).
  { intros pre post Hpre. unfold full_scan. rewrite full_scan_from_split.
    now rewrite (binary_log_full_first_failure P c pre post i IndexError). }
  split; [exact Hfull|]. split; [exact Hfilt|]. split; [exact Hscan|].
  split; [exact Hfirst|]. split; [|split].
  - intros requests param Hin Hrid. unfold filtered_scan.
    rewrite filtered_scan_from_split.
    destruct (binary_log_filtered_failure P c requests param _ empty_log Hin
                (Hfilt param Hrid)) as [e ->].
    simpl. eauto.
  - intros Hin draw. unfold run_harness.
    destruct (build_requests draw 0 (req_query c)); simpl; [|discriminate].
    destruct (Hscan _ Hin) as [e ->]. simpl. discriminate.
  - intros draw requests pre post Hreq Hids Hpre. unfold run_harness.
    rewrite Hreq, Hids, (Hfirst pre post Hpre). reflexivity.
Qed.

(** The empty store has no blob for identifier 1. *)
Lemma missing_blob_raises_index_error_witness :
  (forall b, In b (binary_data empty_db) -> b_data_set_id b <> 1) /\
  measure_binary_full exact_csv_float empty_db 1 = Raise IndexError /\
  raised (run_harness exact_csv_float ex_draw empty_db) = Some IndexError.
Proof.
  assert (H : forall b, In b (binary_data empty_db) -> b_data_set_id b <> 1)
    by (simpl; tauto).
  split; [exact H|]. split.
  - exact (proj1 (missing_blob_raises_index_error exact_csv_float empty_db 1 H)).
  - vm_compute. reflexivity.
Defined.

(** ** The blob of a data set *)

Lemma drop_data_set_id (X : Externals) (d : list Obs) :
  drop_column "data_set_id" (frame_of_data X d) = Ok (observation_frame X d).
Proof.
  unfold drop_column, frame_of_data, observation_frame, REQUIRED_COLUMNS, float_cells.
  destruct (wvht_first X); simpl; now rewrite map_map.
Qed.

Lemma enumerate_from_snd {A B : Type} (g : A -> B) (l : list A) (start : Z) :
  map (fun p => g (snd p)) (enumerate_from start l) = map g l.
Proof.
  revert start. induction l as [|a l IH]; intros start; simpl; auto.
  now rewrite IH.
Qed.

Lemma mask_filter_map {A B : Type} (g : A -> B) (mask : list bool) (l : list A) :
  mask_filter mask (map g l) = map g (mask_filter mask l).
Proof.
  revert l. induction mask as [|b mask IH]; intros [|a l]; simpl; auto.
  destruct b; simpl; now rewrite IH.
Qed.

Lemma mask_filter_filter {A : Type} (p : A -> bool) (l : list A) :
  mask_filter (map p l) l = filter p l.
Proof.
  induction l as [|a l IH]; simpl; auto.
  destruct (p a); now rewrite IH.
Qed.




Lemma parse_cell_float (P : Q -> Q) (x : float64) :
  parse_cell P (cell_of_float x) = cell_of_float (read_float P x).
Proof. now destruct x. Qed.

(** The frame that [read_csv] makes of the blob of [d]. *)
Lemma read_blob (X : Externals) (P : Q -> Q) (d : list Obs) :
  read_csv P (to_csv (observation_frame X d)) = Ok (read_back X P d).
Proof.
  unfold read_csv, to_csv, read_back, observation_frame, REQUIRED_COLUMNS.
  destruct (wvht_first X); cbn; now rewrite map_map.
Qed.

(** A column of the frame read back, by its position after the index. *)
Lemma blob_column (X : Externals) (P : Q -> Q) (k : nat) (d : list Obs) :
  map (fun r => nth (S k) r CNaN) (body (read_back X P d)) =
  map (fun o => parse_cell P (nth k (float_cells X o ++ [CTime (date o)]) CNaN)) d.
Proof.
  unfold read_back, observation_frame, enumerate. cbn [body].
  rewrite map_map. cbn [nth fst snd].
  rewrite (enumerate_from_snd (fun cells => nth k (map (parse_cell P) cells) CNaN)).
  rewrite map_map. apply map_ext. intros o.
  change CNaN with (parse_cell P CNaN) at 1. apply map_nth.
Qed.

Lemma blob_index_date (X : Externals) :
  index_of "date" ("Unnamed: 0" :: map RENAME (REQUIRED_COLUMNS X) ++ ["date"])
  = Some 3%nat.
Proof. unfold REQUIRED_COLUMNS. now destruct (wvht_first X). Qed.

Lemma blob_column_date (X : Externals) (P : Q -> Q) (d : list Obs) (mask : list bool) :
  column "date" {| columns := columns (read_back X P d);
                   body := mask_filter mask (body (read_back X P d)) |}
  = Ok (mask_filter mask (map (fun o => CTime (date o)) d)).
Proof.
  unfold column. cbn [columns body]. unfold read_back at 1. cbn [columns].
  rewrite blob_index_date. f_equal.
  rewrite <- mask_filter_map, blob_column. f_equal.
  apply map_ext. intros o. unfold float_cells. now destruct (wvht_first X).
Qed.

Lemma blob_column_tp (X : Externals) (P : Q -> Q) (d : list Obs) (mask : list bool) :
  column "tp" {| columns := columns (read_back X P d);
                 body := mask_filter mask (body (read_back X P d)) |}
  = Ok (mask_filter mask (map (fun o => cell_of_float (read_float P (tp o))) d)).
Proof.
  unfold column. cbn [columns body]. unfold read_back at 1. cbn [columns].
  unfold REQUIRED_COLUMNS, float_cells.
  destruct (wvht_first X) eqn:Ew; cbn [map app index_of RENAME String.eqb Ascii.eqb
    Bool.eqb option_map]; f_equal;
    rewrite <- mask_filter_map, blob_column; f_equal;
    apply map_ext; intros o; unfold float_cells; rewrite Ew; cbn [nth app];
    apply parse_cell_float.
Qed.

Lemma blob_column_hm0 (X : Externals) (P : Q -> Q) (d : list Obs) (mask : list bool) :
  column "hm0" {| columns := columns (read_back X P d);
                  body := mask_filter mask (body (read_back X P d)) |}
  = Ok (mask_filter mask (map (fun o => cell_of_float (read_float P (hm0 o))) d)).
Proof.
  unfold column. cbn [columns body]. unfold read_back at 1. cbn [columns].
  unfold REQUIRED_COLUMNS, float_cells.
  destruct (wvht_first X) eqn:Ew; cbn [map app index_of RENAME String.eqb Ascii.eqb
    Bool.eqb option_map]; f_equal;
    rewrite <- mask_filter_map, blob_column; f_equal;
    apply map_ext; intros o; unfold float_cells; rewrite Ew; cbn [nth app];
    apply parse_cell_float.
Qed.

Lemma mask_true {A B : Type} (l1 : list A) (l2 : list B) :
  List.length l1 = List.length l2 ->
  mask_filter (map (fun _ => true) l1) l2 = l2.
Proof.
  revert l2. induction l1 as [|a l1 IH]; intros [|b l2]; simpl; try discriminate; auto.
  intros [= H]. now rewrite IH.
Qed.

Lemma read_back_length (X : Externals) (P : Q -> Q) (d : list Obs) :
  List.length (body (read_back X P d)) = List.length d.
Proof.
  unfold read_back, observation_frame, enumerate. cbn [body].
  rewrite length_map. generalize 0.
  induction d as [|o d IH]; intros s; simpl; auto.
Qed.

(** The whole frame is the frame under the mask that keeps every row. *)
Lemma read_back_unmasked (X : Externals) (P : Q -> Q) (d : list Obs) :
  read_back X P d =
  {| columns := columns (read_back X P d);
     body := mask_filter (map (fun _ => true) (body (read_back X P d)))
                         (body (read_back X P d)) |}.
Proof. rewrite mask_true by reflexivity. reflexivity. Qed.

Lemma blob_column_date_all (X : Externals) (P : Q -> Q) (d : list Obs) :
  column "date" (read_back X P d) = Ok (map (fun o => CTime (date o)) d).
Proof.
  rewrite (read_back_unmasked X P d), blob_column_date.
  now rewrite mask_true by (rewrite read_back_length, length_map; reflexivity).
Qed.

Lemma blob_column_tp_all (X : Externals) (P : Q -> Q) (d : list Obs) :
  column "tp" (read_back X P d)
  = Ok (map (fun o => cell_of_float (read_float P (tp o))) d).
Proof.
  rewrite (read_back_unmasked X P d), blob_column_tp.
  now rewrite mask_true by (rewrite read_back_length, length_map; reflexivity).
Qed.

Lemma blob_column_hm0_all (X : Externals) (P : Q -> Q) (d : list Obs) :
  column "hm0" (read_back X P d)
  = Ok (map (fun o => cell_of_float (read_float P (hm0 o))) d).
Proof.
  rewrite (read_back_unmasked X P d), blob_column_hm0.
  now rewrite mask_true by (rewrite read_back_length, length_map; reflexivity).
Qed.

(** The blob of a data set, read back: the three observation columns hold the
    observations in order. *)
Lemma blob_round_trip_observations (X : Externals) (P : Q -> Q) (d : list Obs) :
  exists f,
    blob_round_trip X P d = Ok f /\
    columns f = "Unnamed: 0" :: map RENAME (REQUIRED_COLUMNS X) ++ ["date"] /\
    frame_observations f = Ok (observations P d).
Proof.
  unfold blob_round_trip. rewrite drop_data_set_id. cbn [bind].
  rewrite read_blob. eexists. split; [reflexivity|]. split; [reflexivity|].
  unfold frame_observations.
  rewrite blob_column_date_all, blob_column_hm0_all, blob_column_tp_all. cbn [bind].
  unfold observations. f_equal.
  induction d as [|o d IH]; simpl; auto.
  rewrite IH, <- !parse_cell_float. reflexivity.
Qed.

(** ** The tables after the writer *)

Lemma writer_tables (X : Externals) (ds : list (Z * ds_entry)) (c : DB) :
  writer X c ds =
  Ok {| row_data := row_data c ++ flat_map (fun ke => data (snd ke)) ds;
        binary_data := binary_data c ++ map (blob_of X) ds;
        data_size_table :=
          data_size_table c ++ map (fun ke => (fst ke, data_size (snd ke))) ds;
        session_year := session_year c;
        group_rank := group_rank c |}.
Proof.
  revert c. induction ds as [|[k e] ds IH]; intros c.
  - simpl. rewrite !app_nil_r. now destruct c.
  - cbn [writer]. unfold write_data_set. rewrite drop_data_set_id. cbn [bind].
    rewrite IH.
    cbn [row_data binary_data data_size_table session_year group_rank map flat_map
         fst snd].
    unfold blob_of at 2. cbn [fst snd].
    now rewrite <- !app_assoc.
Qed.

Lemma filter_all {A : Type} (p : A -> bool) (l : list A) :
  Forall (fun x => p x = true) l -> filter p l = l.
Proof. induction 1 as [|a l Ha _ IH]; simpl; auto. now rewrite Ha, IH. Qed.

Lemma filter_none {A : Type} (p : A -> bool) (l : list A) :
  Forall (fun x => p x = false) l -> filter p l = [].
Proof. induction 1 as [|a l Ha _ IH]; simpl; auto. now rewrite Ha. Qed.



Lemma keyed_rows (ds : list (Z * ds_entry)) (k : Z) (e : ds_entry) :
  keyed ds -> In (k, e) ds ->
  filter (fun r => data_set_id r =? k) (flat_map (fun ke => data (snd ke)) ds) = data e.
Proof.
  intros [Hnd Hrows]. induction ds as [|[k0 e0] ds IH]; intros Hin; [destruct Hin|].
  simpl in *. inversion Hnd as [|? ? Hk0 Hnd']; subst.
  inversion Hrows as [|? ? Hrow0 Hrows']; subst. simpl in Hrow0.
  rewrite filter_app. destruct Hin as [[= -> ->]|Hin].
  - rewrite filter_all.
    2:{ eapply Forall_impl; [|exact Hrow0]. simpl. intros o Ho. now apply Z.eqb_eq. }
    rewrite filter_none; [now rewrite app_nil_r|].
    apply Forall_forall. intros o Ho. apply in_flat_map in Ho.
    destruct Ho as ([k' e'] & Hke' & Ho). simpl in Ho.
    rewrite Forall_forall in Hrows'. specialize (Hrows' _ Hke'). simpl in Hrows'.
    rewrite Forall_forall in Hrows'. rewrite (Hrows' o Ho).
    apply Z.eqb_neq. intros ->. apply Hk0. apply in_map_iff. exists (k, e'). auto.
  - rewrite filter_none; [simpl; now apply IH|].
    eapply Forall_impl; [|exact Hrow0]. simpl. intros o ->.
    apply Z.eqb_neq. intros ->. apply Hk0. apply in_map_iff. exists (k, e). auto.
Qed.

Lemma keyed_blob (X : Externals) (ds : list (Z * ds_entry)) (k : Z) (e : ds_entry) :
  NoDup (map fst ds) -> In (k, e) ds ->
  filter (fun b => b_data_set_id b =? k) (map (blob_of X) ds) = [blob_of X (k, e)].
Proof.
  intros Hnd. induction ds as [|[k0 e0] ds IH]; intros Hin; [destruct Hin|].
  simpl in *. inversion Hnd as [|? ? Hk0 Hnd']; subst.
  destruct Hin as [[= -> ->]|Hin].
  - rewrite Z.eqb_refl. f_equal. apply filter_none.
    apply Forall_forall. intros b Hb. apply in_map_iff in Hb.
    destruct Hb as ([k' e'] & <- & Hke'). simpl.
    apply Z.eqb_neq. intros ->. apply Hk0. apply in_map_iff. exists (k, e'). auto.
  - replace (k0 =? k) with false; auto.
    symmetry. apply Z.eqb_neq. intros ->. apply Hk0. apply in_map_iff. exists (k, e). auto.
Qed.


(** ** Sums of float columns *)








(** ** The two representations of a written data set *)







(** C6, at a data set of two observations, whichever order the float columns
    have and whatever the floats read back are: the payload has a fourth,
    leading field per record, the position of the row, and the frame read
    back has a fourth column [Unnamed: 0]; it is not the frame of the
    observations alone.  Last, the frame read back with [WVHT] before [DPD]
    and floats read back exactly. *)
Lemma blob_payload_carries_row_index (X : Externals) (P : Q -> Q) :
  (f <- drop_column "data_set_id" (frame_of_data X ex_data) ;; Ok (header (to_csv f)))
    = Ok ("" :: map RENAME (REQUIRED_COLUMNS X) ++ ["date"]) /\
  (exists f,
     blob_round_trip X P ex_data = Ok f /\
     columns f = "Unnamed: 0" :: map RENAME (REQUIRED_COLUMNS X) ++ ["date"] /\
     map (fun r => nth 0 r CNaN) (body f) = [CInt 0; CInt 1] /\
     Forall (fun r => List.length r = 4%nat) (body f)) /\
  blob_round_trip X P ex_data <> Ok (observation_frame X ex_data) /\
  blob_round_trip ex_externals exact_csv_float ex_data
    = Ok {| columns := ["Unnamed: 0"; "hm0"; "tp"; "date"];
            body := [ [CInt 0; CFloat 1.5; CFloat 8; CTime (ts 2005 1 1)];
                      [CInt 1; CFloat 0.5; CNaN; CTime (ts 2005 1 2)] ] |}.
Proof.
  unfold blob_round_trip at 1 2 3. rewrite drop_data_set_id. cbn [bind]. rewrite read_blob.
  split; [reflexivity|]. split; [|split; [|reflexivity]].
  - eexists. split; [reflexivity|]. split; [reflexivity|].
    unfold read_back, observation_frame, float_cells.
    destruct (wvht_first X); cbn; (split; [reflexivity|repeat constructor]).
  - unfold read_back, observation_frame, REQUIRED_COLUMNS.
    destruct (wvht_first X); discriminate.
Qed.

(** ** More on the eligible stations *)

Lemma select_found_filter (available_buoys : list available_row) (buoy_ids : list string) :
  select_found available_buoys buoy_ids =
  map (loc_id available_buoys)
      (filter (fun b => negb (String.eqb b "41001") &&
                        (year_span <=? List.length (years_of (loc_id available_buoys b)))%nat)
              buoy_ids).
Proof.
  induction buoy_ids as [|b rest IH]; cbn [select_found filter map]; auto.
  destruct (String.eqb b "41001"); cbn [negb andb]; auto.
  destruct (year_span <=? List.length (years_of (loc_id available_buoys b)))%nat;
    cbn [map]; now rewrite IH.
Qed.

Lemma filter_length_le {A : Type} (p : A -> bool) (l : list A) :
  (List.length (filter p l) <= List.length l)%nat.
Proof. induction l as [|a l IH]; simpl; [lia|]. destruct (p a); simpl; lia. Qed.

Lemma unique_length_le {A : Type} (eqb : A -> A -> bool) (l : list A) :
  (List.length (unique eqb l) <= List.length l)%nat.
Proof.
  induction l as [|a l IH]; simpl; [lia|].
  pose proof (filter_length_le (fun y => negb (eqb a y)) (unique eqb l)). lia.
Qed.

(** X1. [found] holds exactly the groups of the stations that occur in
    [available_buoys], are not station 41001 and have at least [year_span]
    distinct years: the hard-coded station is left out however many years it
    has, and every other station with enough years is kept. *)
Theorem found_characterised
  (available_buoys : list available_row) (d : list available_row) :
  In d (found available_buoys) <->
  exists buoy_id,
    In buoy_id (map id available_buoys) /\ buoy_id <> "41001" /\
    d = loc_id available_buoys buoy_id /\
    (year_span <= List.length (years_of d))%nat.
Proof.
  unfold found. rewrite select_found_filter, in_map_iff. split.
  - intros (b & <- & Hb). apply filter_In in Hb. destruct Hb as [Hb Hp].
    rewrite unique_In in Hb by apply String.eqb_eq.
    apply andb_true_iff in Hp. destruct Hp as [Hn Hy].
    exists b. repeat split; auto.
    + intros ->. now rewrite String.eqb_refl in Hn.
    + now apply Nat.leb_le.
  - intros (b & Hb & Hn & -> & Hy). exists b. split; auto.
    apply filter_In. split.
    + now rewrite unique_In by apply String.eqb_eq.
    + apply andb_true_iff. split.
      * apply negb_true_iff. now apply String.eqb_neq.
      * now apply Nat.leb_le.
Qed.

Lemma StronglySorted_filter {A : Type} (R : A -> A -> Prop) (p : A -> bool)
  (l : list A) :
  StronglySorted R l -> StronglySorted R (filter p l).
Proof.
  induction 1 as [|a l _ IH Ha]; simpl; [constructor|].
  destruct (p a); auto. constructor; auto.
  rewrite Forall_forall in *. intros x Hx. apply filter_In in Hx. now apply Ha.
Qed.

Lemma StronglySorted_impl_in {A : Type} (R R' : A -> A -> Prop) (l : list A) :
  (forall a b, In a l -> In b l -> R a b -> R' a b) ->
  StronglySorted R l -> StronglySorted R' l.
Proof.
  intros Himp Hs. induction Hs as [|a l _ IH Ha]; constructor.
  - apply IH. intros x y Hx Hy. apply Himp; now right.
  - rewrite Forall_forall in *. intros x Hx.
    apply Himp; [now left|now right|now apply Ha].
Qed.

Lemma index_of_In (a : string) (l : list string) :
  In a l -> exists i, index_of a l = Some i.
Proof.
  induction l as [|c l IH]; simpl; [tauto|].
  intros H. destruct (String.eqb c a) eqn:E; [now exists 0%nat|].
  destruct H as [->|H]; [now rewrite String.eqb_refl in E|].
  destruct (IH H) as [i ->]. now exists (S i).
Qed.

(** [unique] lists the values by first occurrence. *)
Lemma unique_first_occurrence (l : list string) :
  StronglySorted (first_before l) (unique String.eqb l).
Proof.
  induction l as [|x l IH]; simpl; [constructor|].
  constructor.
  - apply StronglySorted_filter with (p := fun y => negb (String.eqb x y)) in IH.
    revert IH. apply StronglySorted_impl_in.
    intros a b Ha Hb (i & j & Hi & Hj & Hij).
    apply filter_In in Ha. apply filter_In in Hb.
    destruct Ha as [_ Ha]. destruct Hb as [_ Hb].
    apply negb_true_iff in Ha. apply negb_true_iff in Hb.
    exists (S i), (S j). simpl. rewrite Ha, Hb, Hi, Hj. simpl. repeat split; auto. lia.
  - apply Forall_forall. intros y Hy. apply filter_In in Hy. destruct Hy as [Hy Hne].
    apply negb_true_iff in Hne.
    rewrite unique_In in Hy by apply String.eqb_eq.
    destruct (index_of_In y l Hy) as [j Hj].
    exists 0%nat, (S j). simpl. rewrite String.eqb_refl, Hne, Hj. simpl.
    repeat split; auto. lia.
Qed.

(** X2. [found] holds one group per kept station, the stations of
    [available_buoys] other than 41001 with at least [year_span] distinct
    years, in the order in which the stations first occur in
    [available_buoys]; the kept stations are pairwise different, the rows of
    a group all carry its station, and a group has at least [year_span] file
    names. *)
Theorem found_groups_distinct (available_buoys : list available_row) :
  found available_buoys
    = map (loc_id available_buoys) (kept_ids available_buoys) /\
  StronglySorted (first_before (map id available_buoys)) (kept_ids available_buoys) /\
  NoDup (kept_ids available_buoys) /\
  forall b, In b (kept_ids available_buoys) ->
    In b (map id available_buoys) /\ b <> "41001" /\
    Forall (fun r => id r = b) (loc_id available_buoys b) /\
    (year_span <= List.length (map filename (loc_id available_buoys b)))%nat.
Proof.
  unfold found, kept_ids. rewrite select_found_filter.
  split; [reflexivity|]. split; [|split].
  - apply StronglySorted_filter. apply unique_first_occurrence.
  - apply NoDup_filter. apply unique_NoDup. apply String.eqb_eq.
  - intros b Hb. apply filter_In in Hb. destruct Hb as [Hin Hp].
    apply andb_true_iff in Hp. destruct Hp as [Hn Hy]. apply Nat.leb_le in Hy.
    rewrite unique_In in Hin by apply String.eqb_eq.
    split; [exact Hin|]. split; [|split].
    + intros ->. now rewrite String.eqb_refl in Hn.
    + apply Forall_forall. intros r Hr. unfold loc_id in Hr.
      apply filter_In in Hr. now apply String.eqb_eq.
    + rewrite length_map.
      pose proof (unique_length_le Z.eqb (map ayear (loc_id available_buoys b))) as Hl.
      rewrite length_map in Hl. unfold years_of in Hy. lia.
Qed.

(** ** Where the observations of a data set come from *)

Lemma index_of_nth (c : string) (cols : list string) (i : nat) :
  index_of c cols = Some i -> (i < List.length cols)%nat /\ nth i cols "" = c.
Proof.
  revert i. induction cols as [|c' cols IH]; intros i; simpl; [discriminate|].
  destruct (String.eqb c' c) eqn:E.
  - intros [= <-]. apply String.eqb_eq in E. split; [lia|auto].
  - destruct (index_of c cols) as [j|]; simpl; [|discriminate].
    intros [= <-]. destruct (IH j eq_refl). split; [lia|auto].
Qed.

(** A cell of a realigned row is the cell of the same name of the row. *)
Lemma raw_cell_realigned (cols : list string) (rows : list (Timestamp * list cell))
  (f : raw_frame) (c : string) (r : list cell) :
  index_of c cols <> None ->
  raw_cell {| rcolumns := cols; rrows := rows |} c
           (map (fun c' => raw_cell f c' r) cols) = raw_cell f c r.
Proof.
  intros Hc. unfold raw_cell at 1. cbn [rcolumns].
  destruct (index_of c cols) as [i|] eqn:Ei; [|congruence].
  apply index_of_nth in Ei. destruct Ei as [Hi Hn].
  rewrite (nth_indep _ CNaN (raw_cell f "" r)) by now rewrite length_map.
  rewrite (map_nth (fun c' => raw_cell f c' r)). now rewrite Hn.
Qed.

Lemma pd_concat_rows (dfs : list raw_frame) (data : raw_frame) :
  pd_concat dfs = Ok data ->
  rrows data = flat_map (realign (rcolumns data)) dfs.
Proof.
  destruct dfs as [|f dfs]; [discriminate|].
  unfold pd_concat. intros [= <-]. reflexivity.
Qed.

Lemma filter_flat_map {A B : Type} (p : B -> bool) (g : A -> list B) (l : list A) :
  filter p (flat_map g l) = flat_map (fun a => filter p (g a)) l.
Proof.
  induction l as [|a l IH]; simpl; auto. now rewrite filter_app, IH.
Qed.

Lemma filter_map_comm {A B : Type} (p : B -> bool) (g : A -> B) (l : list A) :
  filter p (map g l) = map g (filter (fun a => p (g a)) l).
Proof.
  induction l as [|a l IH]; simpl; auto.
  destruct (p (g a)); simpl; now rewrite IH.
Qed.

Lemma flat_map_map_in {A B C : Type} (g : A -> list B) (h : A -> B -> C) (l : list A) :
  flat_map (fun a => map (h a) (g a)) l =
  map (fun ab => h (fst ab) (snd ab)) (flat_map (fun a => map (pair a) (g a)) l).
Proof.
  induction l as [|a l IH]; simpl; auto.
  rewrite map_app, map_map, IH. reflexivity.
Qed.

(** The rows that normalisation keeps, in terms of the year tables. *)
Lemma kept_source_rows (dfs : list raw_frame) (data : raw_frame) :
  pd_concat dfs = Ok data ->
  index_of "WVHT" (rcolumns data) <> None ->
  filter (fun r => ne_m (raw_cell data "WVHT" (snd r))) (rrows data) =
  map (fun fr => (fst (snd fr),
                  map (fun c => raw_cell (fst fr) c (snd (snd fr))) (rcolumns data)))
      (source_rows dfs).
Proof.
  intros Hcat Hw. rewrite (pd_concat_rows _ _ Hcat).
  rewrite filter_flat_map. unfold source_rows.
  rewrite <- (flat_map_map_in
                (fun f => filter (fun r => ne_m (raw_cell f "WVHT" (snd r))) (rrows f))
                (fun f r => (fst r, map (fun c => raw_cell f c (snd r)) (rcolumns data)))).
  apply flat_map_ext. intros f. unfold realign.
  rewrite filter_map_comm. f_equal.
  apply filter_ext. intros r. cbn [snd].
  destruct data as [cols rows]. cbn [rcolumns] in *.
  now rewrite raw_cell_realigned.
Qed.

Lemma Forall2_map_l {A B C : Type} (R : B -> C -> Prop) (g : A -> B)
  (l : list A) (l' : list C) :
  Forall2 R (map g l) l' <-> Forall2 (fun a c => R (g a) c) l l'.
Proof.
  revert l'. induction l as [|a l IH]; intros l'; simpl; split; intros H;
    inversion H; subst; constructor; auto; now apply IH.
Qed.

Lemma Forall2_map_r {A B C : Type} (R : A -> C -> Prop) (g : B -> C)
  (l : list A) (l' : list B) :
  Forall2 R l (map g l') <-> Forall2 (fun a b => R a (g b)) l l'.
Proof.
  revert l'. induction l as [|a l IH]; intros [|b l']; simpl; split; intros H;
    inversion H; subst; constructor; auto; now apply IH.
Qed.

Lemma required_present_columns (X : Externals) (data : raw_frame) (u : unit) :
  required_present X data = Ok u ->
  index_of "WVHT" (rcolumns data) <> None /\ index_of "DPD" (rcolumns data) <> None.
Proof.
  unfold required_present, REQUIRED_COLUMNS.
  destruct (wvht_first X); cbn [mapM bind];
    destruct (index_of "WVHT" (rcolumns data));
    destruct (index_of "DPD" (rcolumns data)); cbn [bind]; try discriminate;
    split; discriminate.
Qed.

(** X3. The observations of an accepted station are, up to the order that
    [sort_index] gives them, the rows of its year tables that are not unit
    rows, one observation per row: the date is the index label of the row,
    [hm0] and [tp] are the floats of the [WVHT] and [DPD] cells that the row
    has under these names in its own table (NaN when the table has no such
    column), and [data_set_id] is [index + 1]. *)
Theorem accepted_observations_are_source_rows
  (X : Externals) (index : Z) (df : list available_row) (d : list Obs) :
  process_station X index df = Accepted d ->
  exists dfs obs,
    request_data X (map filename df) = Fetched dfs /\
    Forall2 (observed X index) (source_rows dfs) obs /\
    Permutation d obs.
Proof.
  unfold process_station.
  destruct (request_data X (map filename df)) as [dfs| |]; try discriminate.
  destruct (interrupted X index InConcat); try discriminate.
  destruct (pd_concat dfs) as [data|e] eqn:Hcat; try discriminate.
  destruct (interrupted X index InNormalize); try discriminate.
  destruct (normalize X data) as [rows|e] eqn:Hn; try discriminate.
  intros [= <-]. unfold normalize in Hn.
  destruct (index_of "WVHT" (rcolumns data)) eqn:Hw; cbn [bind] in Hn; [|discriminate].
  destruct (required_present X data) as [u|e] eqn:Hreq; cbn [bind] in Hn; [|discriminate].
  destruct (required_present_columns _ _ _ Hreq) as [Hw' Hd'].
  rewrite (kept_source_rows dfs data Hcat Hw') in Hn.
  destruct (mapM (astype_row X data) _) as [floats|e] eqn:Hm; cbn [bind] in Hn;
    [|discriminate].
  injection Hn as <-.
  exists dfs, (finalize index floats). split; [reflexivity|]. split.
  - apply mapM_Ok in Hm. apply Forall2_map_l in Hm.
    unfold finalize. apply Forall2_map_r.
    eapply Forall2_impl; [|exact Hm].
    intros [f r] fr Hrow. unfold astype_row in Hrow. cbn [fst snd] in Hrow.
    destruct data as [cols rows0]. cbn [rcolumns] in *.
    rewrite !raw_cell_realigned in Hrow by assumption.
    destruct (astype_float X (raw_cell f "WVHT" (snd r))) as [h|e] eqn:Eh;
      cbn [bind] in Hrow; [|discriminate].
    destruct (astype_float X (raw_cell f "DPD" (snd r))) as [t|e] eqn:Et;
      cbn [bind] in Hrow; [|discriminate].
    injection Hrow as <-. unfold observed. cbn. auto.
  - unfold finalize. apply Permutation_map. apply sort_index_perm.
Qed.

(** The second station of the example, whose three year tables are fetched. *)
Lemma accepted_observations_are_source_rows_witness :
  exists d dfs obs,
    process_station ex_externals 1 (ex_years "46042" 2000 10) = Accepted d /\
    request_data ex_externals (map filename (ex_years "46042" 2000 10)) = Fetched dfs /\
    Forall2 (observed ex_externals 1) (source_rows dfs) obs /\
    Permutation d obs.
Proof.
  assert (H : { d | process_station ex_externals 1 (ex_years "46042" 2000 10)
                    = Accepted d }).
  { eexists. vm_compute. reflexivity. }
  destruct H as [d H].
  destruct (accepted_observations_are_source_rows _ _ _ _ H) as (dfs & obs & H1 & H2 & H3).
  exists d, dfs, obs. auto.
Defined.

(** ** The order of the observations *)

Lemma lex_leb_total (a b : list Z) :
  List.length a = List.length b -> lex_leb a b = false -> lex_leb b a = true.
Proof.
  revert b. induction a as [|x a IH]; intros [|y b] Hlen H; simpl in *;
    try discriminate.
  injection Hlen as Hlen.
  destruct (x <? y) eqn:Exy; [discriminate|].
  destruct (y <? x) eqn:Eyx; auto.
Qed.

Lemma ts_leb_total (a b : Timestamp) : ts_leb a b = false -> ts_leb b a = true.
Proof. apply lex_leb_total. reflexivity. Qed.

Lemma insert_sorted_sorted {A : Type} (r : Timestamp * A) (l : list (Timestamp * A)) :
  Sorted (fun a b => ts_leb (fst a) (fst b) = true) l ->
  Sorted (fun a b => ts_leb (fst a) (fst b) = true) (insert_sorted r l).
Proof.
  induction 1 as [|r' l Hs IH Hhd]; simpl.
  - repeat constructor.
  - destruct (ts_leb (fst r) (fst r')) eqn:E.
    + repeat constructor; auto.
    + constructor; auto.
      apply ts_leb_total in E.
      destruct l as [|r'' l]; simpl.
      * repeat constructor. exact E.
      * inversion Hhd; subst.
        destruct (ts_leb (fst r) (fst r'')); constructor; auto.
Qed.

Lemma sort_index_sorted {A : Type} (l : list (Timestamp * A)) :
  Sorted (fun a b => ts_leb (fst a) (fst b) = true) (sort_index l).
Proof.
  induction l as [|r l IH]; [constructor|].
  unfold sort_index in *. simpl. now apply insert_sorted_sorted.
Qed.

Lemma Sorted_map {A B : Type} (R : A -> A -> Prop) (S : B -> B -> Prop) (g : A -> B)
  (l : list A) :
  (forall a b, R a b -> S (g a) (g b)) -> Sorted R l -> Sorted S (map g l).
Proof.
  intros Hg. induction 1 as [|a l Hs IH Hhd]; simpl; constructor; auto.
  destruct Hhd; simpl; constructor; auto.
Qed.

Lemma process_station_sorted (X : Externals) (index : Z) (df : list available_row)
  (d : list Obs) :
  process_station X index df = Accepted d -> Sorted date_le d.
Proof.
  unfold process_station.
  destruct (request_data X (map filename df)); try discriminate.
  destruct (interrupted X index InConcat); try discriminate.
  destruct (pd_concat tables); try discriminate.
  destruct (interrupted X index InNormalize); try discriminate.
  destruct (normalize X a) as [rows|e] eqn:Hn; try discriminate.
  intros [= <-]. unfold normalize in Hn.
  destruct (index_of "WVHT" (rcolumns a)); cbn [bind] in Hn; [|discriminate].
  destruct (required_present X a); cbn [bind] in Hn; [|discriminate].
  destruct (mapM (astype_row X a) _) as [floats|e]; cbn [bind] in Hn; [|discriminate].
  injection Hn as <-. unfold finalize.
  eapply Sorted_map; [|apply sort_index_sorted].
  intros r r' H. exact H.
Qed.

(** X4. Every accumulated data set is in ascending order of date, and so are
    the rows that the writer appends for it. *)
Theorem data_sets_sorted_by_date (X : Externals) (available_buoys : list available_row) :
  Forall (fun ke => Sorted date_le (data (snd ke)))
         (data_sets (accumulate X available_buoys)).
Proof.
  eapply Forall_impl; [|apply (inv_origin _ _ _ (accumulate_inv X available_buoys))].
  intros [k e] (d & _ & Hp & _). cbn [snd fst] in *.
  eapply process_station_sorted; eauto.
Qed.

(** ** Interrupts and completeness of the loop *)

Lemma enumerate_from_app {A : Type} (l1 l2 : list A) (start : Z) :
  enumerate_from start (l1 ++ l2) =
  enumerate_from start l1 ++ enumerate_from (start + Z.of_nat (List.length l1)) l2.
Proof.
  revert start. induction l1 as [|a l1 IH]; intros start; simpl.
  - now rewrite Z.add_0_r.
  - rewrite IH. do 3 f_equal. lia.
Qed.

Lemma gather_break (X : Externals) (l1 l2 : list (Z * list available_row))
  (index : Z) (df : list available_row) (st : acc_state) :
  process_station X index df = Break ->
  data_sets (gather X (l1 ++ (index, df) :: l2) st) = data_sets (gather X l1 st) /\
  mem_used (gather X (l1 ++ (index, df) :: l2) st) = mem_used (gather X l1 st).
Proof.
  intros Hb. revert st. induction l1 as [|[i d] l1 IH]; intros st; cbn [app gather].
  - destruct (Qle_bool mem_desired (mem_used st)); auto.
    rewrite Hb. auto.
  - destruct (Qle_bool mem_desired (mem_used st)); auto.
    destruct (process_station X i d); auto.
Qed.

(** X5. A keyboard interrupt that one of the three handlers of the loop
    catches, during the fetch, the concatenation or the normalisation of a
    station, ends the accumulation and keeps what was accumulated: the data
    sets and the running total are those of the stations before the
    interrupted one, whatever stations follow it. *)
Theorem interrupt_keeps_earlier_data_sets
  (X : Externals) (pre post : list (list available_row)) (df : list available_row) :
  process_station X (Z.of_nat (List.length pre)) df = Break ->
  data_sets (gather X (enumerate (pre ++ df :: post)) initial_state)
    = data_sets (gather X (enumerate pre) initial_state) /\
  mem_used (gather X (enumerate (pre ++ df :: post)) initial_state)
    = mem_used (gather X (enumerate pre) initial_state).
Proof.
  intros Hb. unfold enumerate. rewrite enumerate_from_app. cbn [enumerate_from].
  rewrite Z.add_0_l. now apply gather_break.
Qed.

(** The second station of three is interrupted: only the first is kept. *)
Lemma interrupt_keeps_earlier_data_sets_witness :
  process_station ex_externals_sigint 1 (ex_years "46042" 2000 10) = Break /\
  map fst (data_sets (gather ex_externals_sigint
                        (enumerate ([ex_years "44013" 2000 10]
                                    ++ ex_years "46042" 2000 10
                                    :: [ex_years "46050" 1995 12]))
                        initial_state)) = [1].
Proof.
  assert (H : process_station ex_externals_sigint
                (Z.of_nat (List.length [ex_years "44013" 2000 10]))
                (ex_years "46042" 2000 10) = Break)
    by (vm_compute; reflexivity).
  split; [exact H|].
  rewrite (proj1 (interrupt_keeps_earlier_data_sets ex_externals_sigint
                    [ex_years "44013" 2000 10] [ex_years "46050" 1995 12]
                    (ex_years "46042" 2000 10) H)).
  vm_compute. reflexivity.
Defined.

Section Completeness.

Variable X : Externals.
Variable fnd : list (list available_row).

Lemma gather_stored (l pre : list (list available_row)) (st : acc_state) :
  fnd = pre ++ l ->
  List.length (requested st) = List.length pre ->
  acc_inv X fnd st -> stored X fnd st ->
  stored X fnd (gather X (enumerate_from (Z.of_nat (List.length pre)) l) st).
Proof.
  revert pre st. induction l as [|df l IH]; intros pre st Hfnd Hlen Hinv Hst; simpl; auto.
  destruct (Qle_bool mem_desired (mem_used st)) eqn:Hbudget; auto.
  apply budget_open in Hbudget.
  assert (Hnth : nth_error fnd (List.length (requested st)) = Some df).
  { rewrite Hfnd, Hlen, nth_error_app2, Nat.sub_diag by lia. reflexivity. }
  assert (Hnext : Z.of_nat (List.length pre) + 1 = Z.of_nat (List.length (pre ++ [df]))).
  { rewrite length_app. simpl. lia. }
  assert (Hold : forall st' (dat : list Obs),
            List.length (requested st') = S (List.length (requested st)) ->
            (forall ke, In ke (data_sets st) -> In ke (data_sets st')) ->
            (forall dat, process_station X (Z.of_nat (List.length (requested st))) df
                         = Accepted dat ->
               In (Z.of_nat (List.length (requested st)) + 1,
                   {| data := dat; data_size := size_mb X dat |}) (data_sets st')) ->
            stored X fnd st').
  { intros st' _ Hl Hkeep Hnew i d dat Hi Hd Hp. rewrite Hl in Hi.
    destruct (Nat.eq_dec i (List.length (requested st))) as [->|Hne].
    - rewrite Hnth in Hd. injection Hd as <-. now apply Hnew.
    - apply Hkeep. apply (Hst i d dat); auto. lia. }
  rewrite <- Hlen.
  destruct (process_station X (Z.of_nat (List.length (requested st))) df) eqn:Hp.
  - apply (Hold _ []); simpl; auto. discriminate.
  - rewrite Hlen, Hnext. apply IH.
    + now rewrite <- app_assoc.
    + simpl. rewrite length_app. simpl. lia.
    + now apply acc_inv_request.
    + apply (Hold _ []); simpl; auto. discriminate.
  - rewrite Hlen, Hnext.
    assert (Hfresh : Forall (fun ke : Z * ds_entry =>
                       fst ke < Z.of_nat (List.length (requested st)) + 1) (data_sets st)).
    { eapply Forall_impl; [|exact (inv_keys _ _ _ Hinv)]. simpl. intros ke H. lia. }
    apply IH.
    + now rewrite <- app_assoc.
    + simpl. rewrite length_app. simpl. lia.
    + rewrite <- Hlen. now apply acc_inv_store.
    + rewrite <- Hlen. apply (Hold _ []); unfold store_data_set; simpl; auto.
      * rewrite (dict_set_fresh _ _ _ Hfresh). intros ke Hke.
        apply in_or_app. now left.
      * rewrite (dict_set_fresh _ _ _ Hfresh). intros dat [= <-].
        apply in_or_app. right. now left.
Qed.

End Completeness.

(** X6. No accepted station is lost: a station that the loop requested and
    whose processing gave a data set is stored under its position plus one,
    with the size that [memory_usage] gave for it, whatever happened to the
    stations before and after it. *)
Theorem requested_accepted_station_stored
  (X : Externals) (available_buoys : list available_row)
  (i : nat) (d : list available_row) (dat : list Obs) :
  (i < List.length (requested (accumulate X available_buoys)))%nat ->
  nth_error (found available_buoys) i = Some d ->
  process_station X (Z.of_nat i) d = Accepted dat ->
  In (Z.of_nat i + 1, {| data := dat; data_size := size_mb X dat |})
     (data_sets (accumulate X available_buoys)).
Proof.
  unfold accumulate, enumerate.
  apply (gather_stored X (found available_buoys) (found available_buoys) []
           initial_state); auto using acc_inv_initial.
  intros j d' dat' Hj. simpl in Hj. lia.
Qed.

(** The second station of the example, requested after the first failed. *)
Lemma requested_accepted_station_stored_witness :
  exists d dat,
    (1 < List.length (requested (accumulate ex_externals ex_available)))%nat /\
    nth_error (found ex_available) 1 = Some d /\
    process_station ex_externals 1 d = Accepted dat /\
    In (2, {| data := dat; data_size := size_mb ex_externals dat |})
       (data_sets (accumulate ex_externals ex_available)).
Proof.
  assert (H1 : (1 < List.length (requested (accumulate ex_externals ex_available)))%nat)
    by (apply Nat.ltb_lt; vm_compute; reflexivity).
  assert (H2 : { d | nth_error (found ex_available) 1 = Some d })
    by (eexists; vm_compute; reflexivity).
  destruct H2 as [d H2].
  assert (H3 : { dat | process_station ex_externals (Z.of_nat 1) d = Accepted dat }).
  { destruct (process_station ex_externals (Z.of_nat 1) d) as [| |dat] eqn:E.
    - exfalso. revert H2 E. vm_compute. intros [= <-]. discriminate.
    - exfalso. revert H2 E. vm_compute. intros [= <-]. discriminate.
    - now exists dat. }
  destruct H3 as [dat H3].
  exists d, dat. repeat split; auto.
  exact (requested_accepted_station_stored ex_externals ex_available 1 d dat H1 H2 H3).
Defined.

(** ** The writer on a store that holds records already *)

Lemma keyed_sizes (ds : list (Z * ds_entry)) (k : Z) (e : ds_entry) :
  NoDup (map fst ds) -> In (k, e) ds ->
  filter (fun s : Z * Q => fst s =? k) (map (fun ke => (fst ke, data_size (snd ke))) ds)
  = [(k, data_size e)].
Proof.
  intros Hnd. induction ds as [|[k0 e0] ds IH]; intros Hin; [destruct Hin|].
  simpl in *. inversion Hnd as [|? ? Hk0 Hnd']; subst.
  destruct Hin as [[= -> ->]|Hin].
  - rewrite Z.eqb_refl. f_equal. apply filter_none.
    apply Forall_forall. intros s Hs. apply in_map_iff in Hs.
    destruct Hs as ([k' e'] & <- & Hke'). simpl.
    apply Z.eqb_neq. intros ->. apply Hk0. apply in_map_iff. exists (k, e'). auto.
  - replace (k0 =? k) with false; auto.
    symmetry. apply Z.eqb_neq. intros ->. apply Hk0. apply in_map_iff. exists (k, e). auto.
Qed.

Lemma absent_rows (ds : list (Z * ds_entry)) (j : Z) :
  Forall (fun ke => Forall (fun o => data_set_id o = fst ke) (data (snd ke))) ds ->
  ~ In j (map fst ds) ->
  filter (fun r => data_set_id r =? j) (flat_map (fun ke => data (snd ke)) ds) = [].
Proof.
  intros Hrows Hj. apply filter_none. apply Forall_forall. intros o Ho.
  apply in_flat_map in Ho. destruct Ho as ([k e] & Hke & Ho).
  rewrite Forall_forall in Hrows. specialize (Hrows _ Hke).
  rewrite Forall_forall in Hrows. rewrite (Hrows o Ho). cbn [fst].
  apply Z.eqb_neq. intros ->. apply Hj. apply in_map_iff. exists (j, e). auto.
Qed.

Lemma absent_blobs (X : Externals) (ds : list (Z * ds_entry)) (j : Z) :
  ~ In j (map fst ds) ->
  filter (fun b => b_data_set_id b =? j) (map (blob_of X) ds) = [].
Proof.
  intros Hj. apply filter_none. apply Forall_forall. intros b Hb.
  apply in_map_iff in Hb. destruct Hb as ([k e] & <- & Hke). cbn.
  apply Z.eqb_neq. intros ->. apply Hj. apply in_map_iff. exists (j, e). auto.
Qed.

Lemma enumerate_from_length {A : Type} (l : list A) (start : Z) :
  List.length (enumerate_from start l) = List.length l.
Proof. revert start. induction l; intros start; simpl; auto. Qed.

(** X7. A writer that completes has only appended.  For data sets with
    distinct keys whose rows carry their key, written into any store: the
    rows of a data set follow those the store held for its identifier, in
    order and as many as the data set has observations; one blob record and
    one size record are added for it, the blob with a header of the row
    position, the two float columns in the order of [REQUIRED_COLUMNS] and
    the date, without [data_set_id], and one record per observation; and
    what the store holds for an identifier that is not written is left as it
    was. *)
Theorem writer_appends_one_record_set
  (X : Externals) (c0 c : DB) (ds : list (Z * ds_entry)) (k : Z) (e : ds_entry) :
  keyed ds -> In (k, e) ds ->
  writer X c0 ds = Ok c ->
  row_q c k = row_q c0 k ++ data e /\
  binary_q c k = binary_q c0 k ++ [blob_of X (k, e)] /\
  header (b_data (blob_of X (k, e))) = "" :: map RENAME (REQUIRED_COLUMNS X) ++ ["date"] /\
  ~ In "data_set_id" (header (b_data (blob_of X (k, e)))) /\
  List.length (records (b_data (blob_of X (k, e)))) = List.length (data e) /\
  filter (fun s : Z * Q => fst s =? k) (data_size_table c)
    = filter (fun s : Z * Q => fst s =? k) (data_size_table c0) ++ [(k, data_size e)] /\
  (forall j, ~ In j (map fst ds) ->
     row_q c j = row_q c0 j /\ binary_q c j = binary_q c0 j).
Proof.
  intros Hkeyed Hin Hw. rewrite writer_tables in Hw. injection Hw as <-.
  unfold row_q, binary_q. cbn [row_data binary_data data_size_table].
  rewrite !filter_app.
  rewrite (keyed_rows ds k e Hkeyed Hin).
  rewrite (keyed_blob X ds k e (proj1 Hkeyed) Hin).
  rewrite (keyed_sizes ds k e (proj1 Hkeyed) Hin).
  repeat split; auto.
  - unfold blob_of, to_csv, observation_frame, REQUIRED_COLUMNS. cbn.
    destruct (wvht_first X); cbn; intuition discriminate.
  - unfold blob_of, to_csv, enumerate. cbn.
    now rewrite length_map, enumerate_from_length, length_map.
  - rewrite filter_app, (absent_rows ds j (proj2 Hkeyed) H). apply app_nil_r.
  - rewrite filter_app, (absent_blobs X ds j H). apply app_nil_r.
Qed.

(** One data set written into the empty store. *)
Lemma writer_appends_one_record_set_witness :
  keyed [(1, {| data := ex_data; data_size := 1 |})] /\
  exists c,
    writer ex_externals empty_db [(1, {| data := ex_data; data_size := 1 |})] = Ok c /\
    row_q c 1 = ex_data.
Proof.
  assert (Hk : keyed [(1, {| data := ex_data; data_size := 1 |})]).
  { split; [repeat constructor; simpl; tauto|]. repeat constructor. }
  split; [exact Hk|].
  assert (Hw : { c | writer ex_externals empty_db
                       [(1, {| data := ex_data; data_size := 1 |})] = Ok c })
    by (eexists; vm_compute; reflexivity).
  destruct Hw as [c Hw]. exists c. split; [exact Hw|].
  exact (proj1 (writer_appends_one_record_set ex_externals empty_db c _ 1 _ Hk
                  (or_introl eq_refl) Hw)).
Defined.

(** ** Writing the same data sets twice *)



(** ** The shape of the logs *)

Lemma measure_binary_full_id (P : Q -> Q) (c : DB) (i : Z) (m : measure Z) :
  measure_binary_full P c i = Ok m -> fst (fst (fst m)) = i.
Proof.
  unfold measure_binary_full.
  destruct (binary_q c i) as [|r0 res] eqn:Hq; cbn [first_row bind]; [discriminate|].
  assert (Hr0 : b_data_set_id r0 = i).
  { assert (Hin : In r0 (binary_q c i)) by (rewrite Hq; now left).
    unfold binary_q in Hin. apply filter_In in Hin. now apply Z.eqb_eq. }
  destruct (read_csv P (b_data r0)); cbn [bind]; [|discriminate].
  destruct (column "date" a); cbn [bind]; [|discriminate].
  destruct (to_datetime a0); cbn [bind]; [|discriminate].
  destruct (column "tp" a); cbn [bind]; [|discriminate].
  destruct (series_sum a2); cbn [bind]; [|discriminate].
  now intros [= <-].
Qed.

Lemma measure_binary_filtered_id (P : Q -> Q) (c : DB) (param : request)
  (m : measure Z) :
  measure_binary_filtered P c param = Ok m -> fst (fst (fst m)) = rid param.
Proof.
  unfold measure_binary_filtered.
  destruct (binary_q c (rid param)) as [|r0 res] eqn:Hq; cbn [first_row bind];
    [discriminate|].
  assert (Hr0 : b_data_set_id r0 = rid param).
  { assert (Hin : In r0 (binary_q c (rid param))) by (rewrite Hq; now left).
    unfold binary_q in Hin. apply filter_In in Hin. now apply Z.eqb_eq. }
  destruct (read_csv P (b_data r0)); cbn [bind]; [|discriminate].
  destruct (column "date" a); cbn [bind]; [|discriminate].
  destruct (to_datetime a0); cbn [bind]; [|discriminate].
  destruct (column "tp" _); cbn [bind]; [|discriminate].
  destruct (series_sum a2); cbn [bind]; [|discriminate].
  now intros [= <-].
Qed.

(** A log with [n] lines whose identifiers are [ids]. *)
Lemma log_measure_shape {I : Type} (lg : data_log I) (m : measure I) (ids : list I) (n : nat) :
  set_id lg = ids /\ List.length (min_date lg) = n /\
  List.length (max_date lg) = n /\ List.length (tp_sum lg) = n ->
  set_id (log_measure lg m) = ids ++ [fst (fst (fst m))] /\
  List.length (min_date (log_measure lg m)) = S n /\
  List.length (max_date (log_measure lg m)) = S n /\
  List.length (tp_sum (log_measure lg m)) = S n.
Proof.
  destruct m as [[[i mn] mx] s]. intros (H1 & H2 & H3 & H4). cbn.
  rewrite !length_app, H1, H2, H3, H4. cbn. repeat split; lia.
Qed.

Lemma binary_log_full_shape (P : Q -> Q) (c : DB) (ids done : list Z)
  (lg lg' : data_log Z) :
  set_id lg = done /\ List.length (min_date lg) = List.length done /\
  List.length (max_date lg) = List.length done /\
  List.length (tp_sum lg) = List.length done ->
  binary_log_full P c ids lg = Ok lg' ->
  set_id lg' = done ++ ids /\ List.length (min_date lg') = List.length (done ++ ids) /\
  List.length (max_date lg') = List.length (done ++ ids) /\
  List.length (tp_sum lg') = List.length (done ++ ids).
Proof.
  revert done lg. induction ids as [|i ids IH]; intros done lg Hlg; simpl.
  - intros [= <-]. now rewrite app_nil_r.
  - destruct (measure_binary_full P c i) as [m|e] eqn:Hm; cbn [bind]; [|discriminate].
    intros H. apply (IH (done ++ [i])) in H.
    + now rewrite <- app_assoc in H.
    + apply measure_binary_full_id in Hm.
      pose proof (log_measure_shape lg m done (List.length done) Hlg) as Hs.
      rewrite Hm in Hs. rewrite length_app. cbn.
      replace (List.length done + 1)%nat with (S (List.length done)) by lia. exact Hs.
Qed.

Lemma binary_log_filtered_shape (P : Q -> Q) (c : DB) (requests : list request)
  (done : list Z) (lg lg' : data_log Z) :
  set_id lg = done /\ List.length (min_date lg) = List.length done /\
  List.length (max_date lg) = List.length done /\
  List.length (tp_sum lg) = List.length done ->
  binary_log_filtered P c requests lg = Ok lg' ->
  set_id lg' = done ++ map rid requests /\
  List.length (min_date lg') = List.length (done ++ map rid requests) /\
  List.length (max_date lg') = List.length (done ++ map rid requests) /\
  List.length (tp_sum lg') = List.length (done ++ map rid requests).
Proof.
  revert done lg. induction requests as [|p requests IH]; intros done lg Hlg; simpl.
  - intros [= <-]. now rewrite app_nil_r.
  - destruct (measure_binary_filtered P c p) as [m|e] eqn:Hm; cbn [bind]; [|discriminate].
    intros H. apply (IH (done ++ [rid p])) in H.
    + now rewrite <- app_assoc in H.
    + apply measure_binary_filtered_id in Hm.
      pose proof (log_measure_shape lg m done (List.length done) Hlg) as Hs.
      rewrite Hm in Hs. rewrite length_app. cbn.
      replace (List.length done + 1)%nat with (S (List.length done)) by lia. exact Hs.
Qed.

Lemma rows_log_shape {A : Type} (g : A -> measure (list Z)) (l : list A)
  (lg : data_log (list Z)) (n : nat) :
  List.length (set_id lg) = n /\ List.length (min_date lg) = n /\
  List.length (max_date lg) = n /\ List.length (tp_sum lg) = n ->
  let lg' := fold_left (fun lg a => log_measure lg (g a)) l lg in
  List.length (set_id lg') = (n + List.length l)%nat /\
  List.length (min_date lg') = (n + List.length l)%nat /\
  List.length (max_date lg') = (n + List.length l)%nat /\
  List.length (tp_sum lg') = (n + List.length l)%nat.
Proof.
  revert lg n. induction l as [|a l IH]; intros lg n Hlg; simpl.
  - rewrite Nat.add_0_r. exact Hlg.
  - replace (n + S (List.length l))%nat with (S n + List.length l)%nat by lia.
    apply IH. destruct Hlg as (H1 & H2 & H3 & H4).
    destruct (g a) as [[[i mn] mx] s]. cbn.
    rewrite !length_app, H1, H2, H3, H4. cbn. repeat split; lia.
Qed.

(** X10. A scan that completes leaves logs of one line per query: in the row
    log and in the binary log each of the four columns has as many entries as
    identifiers (or requests) were queried, so the two reports line up, and
    the [set_id] column of the binary log is the list of the identifiers
    queried, in order. *)
Theorem completed_scan_logs_line_up
  (P : Q -> Q) (c : DB) (ids : list Z) (requests : list request) :
  (forall lr lb, full_scan P c ids = Ok (lr, lb) ->
     set_id lb = ids /\
     Forall (fun n => n = List.length ids)
       [List.length (set_id lr); List.length (min_date lr);
        List.length (max_date lr); List.length (tp_sum lr);
        List.length (min_date lb); List.length (max_date lb);
        List.length (tp_sum lb)]) /\
  (forall lr lb, filtered_scan P c requests = Ok (lr, lb) ->
     set_id lb = map rid requests /\
     Forall (fun n => n = List.length requests)
       [List.length (set_id lr); List.length (min_date lr);
        List.length (max_date lr); List.length (tp_sum lr);
        List.length (min_date lb); List.length (max_date lb);
        List.length (tp_sum lb)]).
Proof.
  split; intros lr lb H.
  - unfold full_scan in H. rewrite full_scan_from_split in H.
    destruct (binary_log_full P c ids empty_log) as [lb'|e] eqn:Hb; cbn [bind] in H;
      [|discriminate].
    injection H as <- <-.
    apply (binary_log_full_shape P c ids [] empty_log) in Hb; [|cbn; auto].
    destruct Hb as (Hb1 & Hb2 & Hb3 & Hb4). cbn [app] in *.
    destruct (rows_log_shape (fun i => measure_rows (row_q c i)) ids empty_log 0)
      as (Hr1 & Hr2 & Hr3 & Hr4); [cbn; auto|].
    cbn [Nat.add] in *. split; auto.
    repeat constructor; auto.
  - unfold filtered_scan in H. rewrite filtered_scan_from_split in H.
    destruct (binary_log_filtered P c requests empty_log) as [lb'|e] eqn:Hb;
      cbn [bind] in H; [|discriminate].
    injection H as <- <-.
    apply (binary_log_filtered_shape P c requests [] empty_log) in Hb; [|cbn; auto].
    destruct Hb as (Hb1 & Hb2 & Hb3 & Hb4). cbn [app] in *.
    rewrite length_map in *.
    destruct (rows_log_shape (fun p => measure_rows (row_q_filtered c p)) requests
                empty_log 0) as (Hr1 & Hr2 & Hr3 & Hr4); [cbn; auto|].
    cbn [Nat.add] in *. split; auto.
    repeat constructor; auto.
Qed.

(** ** The row measurement *)

Lemma unique_constant (i : Z) (l : list Z) :
  l <> [] -> Forall (fun x => x = i) l -> unique Z.eqb l = [i].
Proof.
  intros Hne Hall. destruct l as [|x l]; [congruence|].
  inversion Hall as [|? ? Hx Hl]; subst. simpl. f_equal.
  apply filter_none. apply Forall_forall. intros y Hy.
  rewrite unique_In in Hy by (intros; apply Z.eqb_eq).
  rewrite Forall_forall in Hl. rewrite (Hl y Hy). now rewrite Z.eqb_refl.
Qed.

(** X11. The row part of an iteration cannot fail.  For an identifier under
    which the row table has no row, it logs an empty array of identifiers, no
    date at either end and a [tp] sum of 0; for an identifier that has rows it
    logs the array holding just that identifier and a date at both ends. *)
Theorem row_measure_absent_or_present (c : DB) (i : Z) :
  ((forall r, In r (row_data c) -> data_set_id r <> i) ->
   measure_rows (row_q c i) = ([], None, None, 0%Q)) /\
  (forall r, In r (row_data c) -> data_set_id r = i ->
   exists mn mx s, measure_rows (row_q c i) = ([i], Some mn, Some mx, s)).
Proof.
  split.
  - intros Hnone.
    assert (Hq : row_q c i = []).
    { unfold row_q. apply filter_none. apply Forall_forall. intros r Hr.
      apply Z.eqb_neq. now apply Hnone. }
    now rewrite Hq.
  - intros r Hr Hi.
    assert (Hin : In r (row_q c i)).
    { unfold row_q. apply filter_In. split; auto. now apply Z.eqb_eq. }
    assert (Hall : Forall (fun x => x = i) (map data_set_id (row_q c i))).
    { apply Forall_map. apply Forall_forall. intros r' Hr'.
      unfold row_q in Hr'. apply filter_In in Hr'. now apply Z.eqb_eq. }
    assert (Hne : map data_set_id (row_q c i) <> []).
    { destruct (row_q c i); [destruct Hin|discriminate]. }
    unfold measure_rows. rewrite (unique_constant i _ Hne Hall).
    destruct (row_q c i) as [|r0 rows]; [destruct Hin|].
    unfold series_min, series_max. cbn [map fold_left opt_combine].
    destruct (fold_combine_Some ts_min (map (fun r => Some (date r)) rows) (date r0))
      as [mn ->].
    destruct (fold_combine_Some ts_max (map (fun r => Some (date r)) rows) (date r0))
      as [mx ->].
    eauto.
Qed.

(** ** The dates of a measurement *)

Lemma fold_combine_In (f : Timestamp -> Timestamp -> Timestamp)
  (Hf : forall x y, f x y = x \/ f x y = y)
  (l : list (option Timestamp)) (acc : option Timestamp) (t : Timestamp) :
  fold_left (opt_combine f) l acc = Some t -> acc = Some t \/ In (Some t) l.
Proof.
  revert acc. induction l as [|x l IH]; intros acc; simpl; auto.
  intros H. apply IH in H. destruct H as [H|H]; auto.
  destruct acc as [a|], x as [b|]; simpl in H; auto.
  destruct (Hf a b) as [E|E]; rewrite E in H; auto.
Qed.

Lemma ts_min_either (x y : Timestamp) : ts_min x y = x \/ ts_min x y = y.
Proof. unfold ts_min. destruct (ts_leb x y); auto. Qed.

Lemma ts_max_either (x y : Timestamp) : ts_max x y = x \/ ts_max x y = y.
Proof. unfold ts_max. destruct (ts_leb x y); auto. Qed.

Lemma series_min_In (l : list (option Timestamp)) (t : Timestamp) :
  series_min l = Some t -> In (Some t) l.
Proof.
  intros H. apply (fold_combine_In ts_min ts_min_either) in H.
  destruct H; [discriminate|auto].
Qed.

Lemma series_max_In (l : list (option Timestamp)) (t : Timestamp) :
  series_max l = Some t -> In (Some t) l.
Proof.
  intros H. apply (fold_combine_In ts_max ts_max_either) in H.
  destruct H; [discriminate|auto].
Qed.

Lemma mask_filter_In {A : Type} (p : A -> bool) (l : list A) (x : A) :
  In x (mask_filter (map p l) l) -> p x = true.
Proof. rewrite mask_filter_filter, filter_In. tauto. Qed.

(** X12. What the filtered scan measures lies inside the requested window,
    each representation by its own year.  The least and the greatest date
    logged for the rows are dates of rows of the requested data set whose
    year in the time zone of the session lies between [start_year] and
    [end_year], both included; when the measurement of the blob completes,
    the dates logged for it have their UTC year between the same bounds and
    its line is logged under the requested identifier. *)
Theorem filtered_measures_within_window (P : Q -> Q) (c : DB) (param : request) :
  (forall ids mn mx s t,
     measure_rows (row_q_filtered c param) = (ids, mn, mx, s) ->
     mn = Some t \/ mx = Some t ->
     start_year param <= session_year c t <= end_year param /\
     exists r, In r (row_data c) /\ data_set_id r = rid param /\ date r = t) /\
  (forall i mn mx s t,
     measure_binary_filtered P c param = Ok (i, mn, mx, s) ->
     i = rid param /\
     (mn = Some t \/ mx = Some t -> start_year param <= year t <= end_year param)).
Proof.
  split.
  - intros ids mn mx s t Hm Ht. unfold measure_rows in Hm.
    injection Hm as _ Hmn Hmx _.
    assert (Hin : In (Some t) (map (fun r => Some (date r)) (row_q_filtered c param))).
    { destruct Ht as [->| ->]; [now apply series_min_In|now apply series_max_In]. }
    apply in_map_iff in Hin. destruct Hin as (r & [= <-] & Hr).
    unfold row_q_filtered in Hr. apply filter_In in Hr. destruct Hr as [Hr Hp].
    apply andb_true_iff in Hp. destruct Hp as [Hid Hy].
    unfold in_years in Hy. apply andb_true_iff in Hy. destruct Hy as [Hlo Hhi].
    apply Z.leb_le in Hlo, Hhi. apply Z.eqb_eq in Hid.
    split; [lia|]. eauto.
  - intros i mn mx s t Hm.
    pose proof (measure_binary_filtered_id _ _ _ _ Hm) as Hid. cbn in Hid.
    split; auto. intros Ht.
    unfold measure_binary_filtered in Hm.
    destruct (first_row _) as [r0|]; cbn [bind] in Hm; [|discriminate].
    destruct (read_csv _ _) as [f|]; cbn [bind] in Hm; [|discriminate].
    destruct (column "date" f) as [col|]; cbn [bind] in Hm; [|discriminate].
    destruct (to_datetime col) as [dates|]; cbn [bind] in Hm; [|discriminate].
    destruct (column "tp" _) as [tps|]; cbn [bind] in Hm; [|discriminate].
    destruct (series_sum tps); cbn [bind] in Hm; [|discriminate].
    injection Hm as _ Hmn Hmx _.
    assert (Hin : In (Some t) (mask_filter (year_mask param dates) dates)).
    { destruct Ht as [->| ->]; [now apply series_min_In|now apply series_max_In]. }
    unfold year_mask in Hin. apply mask_filter_In in Hin.
    unfold in_years in Hin. apply andb_true_iff in Hin. destruct Hin as [Hlo Hhi].
    apply Z.leb_le in Hlo, Hhi. lia.
Qed.

Lemma lex_leb_refl (a : list Z) : lex_leb a a = true.
Proof.
  induction a as [|x a IH]; simpl; auto. now rewrite Z.ltb_irrefl.
Qed.

Lemma lex_leb_trans (a b c : list Z) :
  List.length a = List.length b -> List.length b = List.length c ->
  lex_leb a b = true -> lex_leb b c = true -> lex_leb a c = true.
Proof.
  revert b c. induction a as [|x a IH]; intros [|y b] [|z c] Hab Hbc; simpl in *;
    try discriminate; auto.
  injection Hab as Hab. injection Hbc as Hbc.
  destruct (x <? y) eqn:Exy, (y <? x) eqn:Eyx, (y <? z) eqn:Eyz, (z <? y) eqn:Ezy,
           (x <? z) eqn:Exz, (z <? x) eqn:Ezx;
    try discriminate; auto;
    rewrite ?Z.ltb_lt, ?Z.ltb_ge in *; try lia.
  intros H1 H2. eapply IH; eauto.
Qed.

Lemma ts_leb_refl (a : Timestamp) : ts_leb a a = true.
Proof. apply lex_leb_refl. Qed.

Lemma ts_leb_trans (a b c : Timestamp) :
  ts_leb a b = true -> ts_leb b c = true -> ts_leb a c = true.
Proof. apply lex_leb_trans; reflexivity. Qed.

Lemma ts_min_le (x y : Timestamp) :
  ts_leb (ts_min x y) x = true /\ ts_leb (ts_min x y) y = true.
Proof.
  unfold ts_min. destruct (ts_leb x y) eqn:E.
  - split; auto using ts_leb_refl.
  - split; auto using ts_leb_refl, ts_leb_total.
Qed.

Lemma ts_max_ge (x y : Timestamp) :
  ts_leb x (ts_max x y) = true /\ ts_leb y (ts_max x y) = true.
Proof.
  unfold ts_max. destruct (ts_leb x y) eqn:E.
  - split; auto using ts_leb_refl.
  - split; auto using ts_leb_refl, ts_leb_total.
Qed.

Lemma fold_min_least (l : list Timestamp) (acc r : Timestamp) :
  fold_left (opt_combine ts_min) (map Some l) (Some acc) = Some r ->
  ts_leb r acc = true /\ Forall (fun t => ts_leb r t = true) l.
Proof.
  revert acc. induction l as [|x l IH]; intros acc; simpl.
  - intros [= <-]. split; auto using ts_leb_refl.
  - intros H. apply IH in H. destruct H as [Hacc Hl].
    destruct (ts_min_le acc x) as [H1 H2].
    split; [eauto using ts_leb_trans|].
    constructor; eauto using ts_leb_trans.
Qed.

Lemma fold_max_greatest (l : list Timestamp) (acc r : Timestamp) :
  fold_left (opt_combine ts_max) (map Some l) (Some acc) = Some r ->
  ts_leb acc r = true /\ Forall (fun t => ts_leb t r = true) l.
Proof.
  revert acc. induction l as [|x l IH]; intros acc; simpl.
  - intros [= <-]. split; auto using ts_leb_refl.
  - intros H. apply IH in H. destruct H as [Hacc Hl].
    destruct (ts_max_ge acc x) as [H1 H2].
    split; [eauto using ts_leb_trans|].
    constructor; eauto using ts_leb_trans.
Qed.

(** X13. The dates that the row part logs bound the rows it read: for every
    row of the frame, the logged least date is not after the date of the row
    and the logged greatest date is not before it, in the order of the
    calendar fields. *)
Theorem row_measure_dates_bound_rows (d_rows : list Obs) (r : Obs) :
  In r d_rows ->
  exists ids mn mx s,
    measure_rows d_rows = (ids, Some mn, Some mx, s) /\
    ts_leb mn (date r) = true /\ ts_leb (date r) mx = true /\
    ts_leb mn mx = true.
Proof.
  intros Hr. unfold measure_rows, series_min, series_max.
  destruct d_rows as [|r0 rows]; [destruct Hr|].
  cbn [map fold_left opt_combine].
  rewrite <- (map_map date Some).
  destruct (fold_combine_Some ts_min (map Some (map date rows)) (date r0)) as [mn Hmn].
  destruct (fold_combine_Some ts_max (map Some (map date rows)) (date r0)) as [mx Hmx].
  rewrite Hmn, Hmx.
  apply fold_min_least in Hmn. apply fold_max_greatest in Hmx.
  destruct Hmn as [Hmn0 Hmn], Hmx as [Hmx0 Hmx].
  rewrite Forall_forall in Hmn, Hmx.
  do 4 eexists. split; [reflexivity|].
  assert (Hlo : ts_leb mn (date r) = true).
  { destruct Hr as [<-|Hr]; auto. apply Hmn. now apply in_map. }
  assert (Hhi : ts_leb (date r) mx = true).
  { destruct Hr as [<-|Hr]; auto. apply Hmx. now apply in_map. }
  eauto using ts_leb_trans.
Qed.

(** The two rows of data set 1 of the example store. *)
Lemma row_measure_dates_bound_rows_witness :
  exists ids mn mx s,
    measure_rows (row_q ex_db_mismatch 1) = (ids, Some mn, Some mx, s) /\
    ts_leb mn (ts 2008 1 1) = true /\ ts_leb (ts 2008 1 1) mx = true /\
    ts_leb mn mx = true.
Proof.
  apply (row_measure_dates_bound_rows (row_q ex_db_mismatch 1)
           {| hm0 := Some 1.5%Q; tp := Some 8%Q; date := ts 2008 1 1; data_set_id := 1 |}).
  vm_compute. right. left. reflexivity.
Defined.

(** ** The requests *)

Lemma build_requests_ids (draw : nat -> nat)
  (info : list (Z * option Timestamp * option Timestamp)) (pos : nat)
  (requests : list request) :
  build_requests draw pos info = Ok requests ->
  map rid requests = map (fun d => fst (fst d)) info.
Proof.
  revert pos requests. induction info as [|d info IH]; intros pos requests; simpl.
  - now intros [= <-].
  - destruct (build_request draw pos d) as [r|e] eqn:Er; cbn [bind]; [|discriminate].
    destruct (build_requests draw (pos + 2) info) as [rs|e] eqn:Ers; cbn [bind];
      [|discriminate].
    intros [= <-]. simpl. f_equal; eauto.
    destruct d as [[i [mn|]] [mx|]]; try discriminate.
    now apply build_request_window in Er.
Qed.

(** X14. When the requests are built there is exactly one for every data set
    that has rows in the row table, in the order in which the store returns
    the groups of the query, which has no [ORDER BY]: the identifiers of the
    requests are pairwise different and are, up to order, the distinct
    identifiers of the row table, so the filtered scan goes by the row table
    and not by the hard-coded list of identifiers. *)
Theorem one_request_per_stored_data_set
  (draw : nat -> nat) (c : DB) (requests : list request) :
  build_requests draw 0 (req_query c) = Ok requests ->
  map rid requests
    = order_by (group_rank c) (unique Z.eqb (map data_set_id (row_data c))) /\
  Permutation (map rid requests) (unique Z.eqb (map data_set_id (row_data c))) /\
  NoDup (map rid requests) /\
  (forall i, In i (map rid requests) <->
             exists r, In r (row_data c) /\ data_set_id r = i).
Proof.
  intros H. apply build_requests_ids in H.
  assert (Hids : map rid requests
                 = order_by (group_rank c) (unique Z.eqb (map data_set_id (row_data c)))).
  { rewrite H. unfold req_query. rewrite map_map. cbn [fst]. apply map_id. }
  assert (Hperm : Permutation (map rid requests)
                    (unique Z.eqb (map data_set_id (row_data c)))).
  { rewrite Hids. apply order_by_perm. }
  split; auto. split; auto. split.
  - apply (Permutation_NoDup (Permutation_sym Hperm)).
    apply unique_NoDup. intros; apply Z.eqb_eq.
  - intros i. split.
    + intros Hi. apply (Permutation_in _ Hperm) in Hi.
      rewrite unique_In in Hi by (intros; apply Z.eqb_eq).
      apply in_map_iff in Hi. destruct Hi as (r & Hr & Hin). eauto.
    + intros (r & Hin & Hr). apply (Permutation_in _ (Permutation_sym Hperm)).
      rewrite unique_In by (intros; apply Z.eqb_eq).
      apply in_map_iff. eauto.
Qed.

(** The example store holds rows of data set 1 only. *)
Lemma one_request_per_stored_data_set_witness :
  exists requests,
    build_requests ex_draw 0 (req_query ex_db_mismatch) = Ok requests /\
    map rid requests = [1].
Proof.
  assert (H : { requests | build_requests ex_draw 0 (req_query ex_db_mismatch)
                           = Ok requests })
    by (eexists; vm_compute; reflexivity).
  destruct H as [requests H].
  exists requests. split; [exact H|].
  rewrite (proj1 (one_request_per_stored_data_set ex_draw ex_db_mismatch requests H)).
  vm_compute. reflexivity.
Defined.

(** ** The blob, column by column *)

Lemma enumerate_from_fst {A : Type} (l : list A) (start : Z) :
  map fst (enumerate_from start l) =
  map (fun i => start + Z.of_nat i) (seq 0 (List.length l)).
Proof.
  revert start. induction l as [|a l IH]; intros start; simpl; auto.
  rewrite Z.add_0_r. f_equal.
  rewrite IH, <- seq_shift, map_map. apply map_ext. intros i. lia.
Qed.

Lemma blob_column_index (X : Externals) (P : Q -> Q) (d : list Obs) :
  column "Unnamed: 0" (read_back X P d)
  = Ok (map (fun i => CInt (Z.of_nat i)) (seq 0 (List.length d))).
Proof.
  unfold column, read_back. cbn [columns body index_of String.eqb Ascii.eqb Bool.eqb].
  f_equal. rewrite map_map. cbn [nth].
  rewrite <- (map_map fst CInt). unfold enumerate. rewrite enumerate_from_fst.
  unfold observation_frame. cbn [body]. rewrite length_map, map_map.
  apply map_ext. intros i. reflexivity.
Qed.

(** X15. The blob of a data set, read back as the harness reads it, is a
    frame of four columns: [Unnamed: 0] comes first and numbers the rows from
    0, the two float columns follow in the order that [REQUIRED_COLUMNS] had
    when the data set was built, [date] comes last.  By name, [hm0] and [tp]
    hold the floats of the observations as [read_csv] reads them from the
    text and [date] their dates, all in the order of the data set; the
    identifier of the data set is not in the payload, so asking the frame
    for [data_set_id] is a [KeyError]. *)
Theorem blob_read_back_columns (X : Externals) (P : Q -> Q) (d : list Obs) :
  exists f,
    blob_round_trip X P d = Ok f /\
    columns f = "Unnamed: 0" :: map RENAME (REQUIRED_COLUMNS X) ++ ["date"] /\
    Permutation (map RENAME (REQUIRED_COLUMNS X)) ["hm0"; "tp"] /\
    column "Unnamed: 0" f
      = Ok (map (fun i => CInt (Z.of_nat i)) (seq 0 (List.length d))) /\
    column "hm0" f = Ok (map (fun o => cell_of_float (read_float P (hm0 o))) d) /\
    column "tp" f = Ok (map (fun o => cell_of_float (read_float P (tp o))) d) /\
    column "date" f = Ok (map (fun o => CTime (date o)) d) /\
    column "data_set_id" f = Raise KeyError.
Proof.
  unfold blob_round_trip. rewrite drop_data_set_id. cbn [bind].
  rewrite read_blob. eexists. split; [reflexivity|]. split; [reflexivity|].
  split; [|split; [apply blob_column_index|]].
  - unfold REQUIRED_COLUMNS. destruct (wvht_first X); cbn; [reflexivity|apply perm_swap].
  - rewrite blob_column_hm0_all, blob_column_tp_all, blob_column_date_all.
    repeat split; auto.
    unfold column, read_back, REQUIRED_COLUMNS. cbn [columns].
    now destruct (wvht_first X).
Qed.

(** ** connect_pg *)

(** X16. [connect_pg] hands to the engine library, in one call, each of the
    six connection options and of the four pool options with the caller's
    value when the caller's dict has its key and with the default otherwise,
    also when a dict is left out, and returns or raises what that call
    returns or raises.  Hence an empty dict gives the call of the defaults,
    and keys other than these ten are ignored. *)
Theorem connect_pg_options (create_engine : URL -> pydict -> result Engine)
  (db_params pool_config : option pydict) :
  connect_pg create_engine db_params pool_config =
    create_engine
      {| drivername := option_or_default db_params "drivername" (PStr "postgresql");
         username := option_or_default db_params "DB_USER" (PStr "postgres");
         password := option_or_default db_params "DB_PASS" (PStr "postgres");
         host := option_or_default db_params "DB_HOSTNAME" (PStr "localhost");
         port := option_or_default db_params "DB_PORT" (PInt 5432);
         database := option_or_default db_params "DB_NAME" (PStr "speed-blog") |}
      [ ("pool_size", option_or_default pool_config "pool_size" (PInt 1));
        ("max_overflow", option_or_default pool_config "max_overflow" (PInt 1));
        ("pool_timeout", option_or_default pool_config "pool_timeout" (PInt 30));
        ("pool_recycle", option_or_default pool_config "pool_recycle" (PInt 3600)) ]
  /\ connect_pg create_engine (Some []) (Some []) = connect_pg create_engine None None
  /\ (forall db db' pool pool',
        (forall key, In key (map fst default_connection) ->
                     dict_lookup db key = dict_lookup db' key) ->
        (forall key, In key (map fst default_pool) ->
                     dict_lookup pool key = dict_lookup pool' key) ->
        connect_pg create_engine (Some db) (Some pool)
        = connect_pg create_engine (Some db') (Some pool')).
Proof.
  assert (Hformula : forall db pool,
    connect_pg create_engine db pool =
    create_engine
      {| drivername := option_or_default db "drivername" (PStr "postgresql");
         username := option_or_default db "DB_USER" (PStr "postgres");
         password := option_or_default db "DB_PASS" (PStr "postgres");
         host := option_or_default db "DB_HOSTNAME" (PStr "localhost");
         port := option_or_default db "DB_PORT" (PInt 5432);
         database := option_or_default db "DB_NAME" (PStr "speed-blog") |}
      [ ("pool_size", option_or_default pool "pool_size" (PInt 1));
        ("max_overflow", option_or_default pool "max_overflow" (PInt 1));
        ("pool_timeout", option_or_default pool "pool_timeout" (PInt 30));
        ("pool_recycle", option_or_default pool "pool_recycle" (PInt 3600)) ]).
  { intros [db|] [pool|]; reflexivity. }
  split; [apply Hformula|]. split; [reflexivity|].
  intros db db' pool pool' Hdb Hpool. rewrite !Hformula.
  unfold option_or_default, dict_get.
  rewrite !Hdb by (simpl; tauto). rewrite !Hpool by (simpl; tauto).
  reflexivity.
Qed.

(** A caller who sets the port and a key that [connect_pg] does not know. *)
Example connect_pg_custom_port :
  connect_pg ex_create_engine (Some ex_db_params) None =
  Ok {| url := {| drivername := PStr "postgresql"; username := PStr "postgres";
                  password := PStr "postgres"; host := PStr "localhost";
                  port := PInt 6432; database := PStr "speed-blog" |};
        pool_kwargs := default_pool |}.
Proof. reflexivity. Qed.

(** A port given as text reaches the engine library as it is, and a library
    that refuses it makes [connect_pg] raise. *)
Example connect_pg_text_port :
  connect_pg ex_create_engine_strict (Some [("DB_PORT", PStr "5432")]) None
  = Raise ValueError.
Proof. reflexivity. Qed.

(** ** The logs, line by line *)

Lemma fold_log_measure {A I : Type} (g : A -> measure I) (l : list A) (lg : data_log I) :
  fold_left (fun lg a => log_measure lg (g a)) l lg =
  {| set_id := set_id lg ++ map (fun a => id_of (g a)) l;
     min_date := min_date lg ++ map (fun a => fst (dates_of (g a))) l;
     max_date := max_date lg ++ map (fun a => snd (dates_of (g a))) l;
     tp_sum := tp_sum lg ++ map (fun a => tp_sum_of (g a)) l |}.
Proof.
  revert lg. induction l as [|a l IH]; intros lg; simpl.
  - rewrite !app_nil_r. now destruct lg.
  - rewrite IH. destruct (g a) as [[[i mn] mx] s]. cbn.
    now rewrite <- !app_assoc.
Qed.

Lemma rows_log_lines {A : Type} (g : A -> measure (list Z)) (l : list A) :
  fold_left (fun lg a => log_measure lg (g a)) l empty_log = log_of (map g l).
Proof. rewrite fold_log_measure. unfold log_of. cbn. now rewrite !map_map. Qed.

Lemma binary_log_lines {A : Type} (f : A -> result (measure Z))
  (run : list A -> data_log Z -> result (data_log Z)) (l : list A) :
  (forall lg, run [] lg = Ok lg) ->
  (forall a l lg, run (a :: l) lg = (m <- f a ;; run l (log_measure lg m))) ->
  forall lg,
    run l lg =
    (ms <- mapM f l ;;
     Ok {| set_id := set_id lg ++ map id_of ms;
           min_date := min_date lg ++ map (fun m => fst (dates_of m)) ms;
           max_date := max_date lg ++ map (fun m => snd (dates_of m)) ms;
           tp_sum := tp_sum lg ++ map tp_sum_of ms |}).
Proof.
  intros Hnil Hcons. induction l as [|a l IH]; intros lg.
  - rewrite Hnil. cbn. rewrite !app_nil_r. now destruct lg.
  - rewrite Hcons. cbn [mapM]. destruct (f a) as [m|e]; cbn [bind]; [|reflexivity].
    rewrite IH. destruct (mapM f l) as [ms|e]; cbn [bind]; [|reflexivity].
    destruct m as [[[i mn] mx] s]. cbn. now rewrite <- !app_assoc.
Qed.

Lemma binary_log_full_lines (P : Q -> Q) (c : DB) (ids : list Z) :
  binary_log_full P c ids empty_log =
  (ms <- mapM (measure_binary_full P c) ids ;; Ok (log_of ms)).
Proof.
  rewrite (binary_log_lines (measure_binary_full P c) (binary_log_full P c));
    reflexivity.
Qed.

Lemma binary_log_filtered_lines (P : Q -> Q) (c : DB) (requests : list request) :
  binary_log_filtered P c requests empty_log =
  (ms <- mapM (measure_binary_filtered P c) requests ;; Ok (log_of ms)).
Proof.
  rewrite (binary_log_lines (measure_binary_filtered P c) (binary_log_filtered P c));
    reflexivity.
Qed.

Lemma mapM_ids {A : Type} (f : A -> result (measure Z)) (key : A -> Z) (l : list A)
  (ms : list (measure Z)) :
  (forall a m, f a = Ok m -> id_of m = key a) ->
  mapM f l = Ok ms -> map id_of ms = map key l.
Proof.
  intros Hid. revert ms. induction l as [|a l IH]; intros ms; cbn [mapM].
  - now intros [= <-].
  - destruct (f a) as [m|e] eqn:Hm; cbn [bind]; [|discriminate].
    destruct (mapM f l) as [ms'|e]; cbn [bind]; [|discriminate].
    intros [= <-]. cbn. f_equal; auto.
Qed.

(** The identifiers that pandas finds in the rows of a query on one
    identifier. *)
Lemma unique_ids_filter (p : Obs -> bool) (i : Z) (rows : list Obs) :
  (forall r, p r = true -> data_set_id r = i) ->
  unique Z.eqb (map data_set_id (filter p rows)) = if existsb p rows then [i] else [].
Proof.
  intros Hp. destruct (existsb p rows) eqn:E.
  - apply unique_constant.
    + apply existsb_exists in E. destruct E as (r & Hr & Hpr).
      assert (Hin : In r (filter p rows)) by (apply filter_In; auto).
      destruct (filter p rows); [destruct Hin|discriminate].
    + apply Forall_map. apply Forall_forall. intros r Hr.
      apply filter_In in Hr. now apply Hp.
  - rewrite filter_none; [reflexivity|].
    apply Forall_forall. intros r Hr.
    destruct (p r) eqn:Epr; auto.
    assert (existsb p rows = true) by (apply existsb_exists; eauto). congruence.
Qed.

(** C1, amended.  In both loops the aggregates of the row representation and
    those of the blob representation are logged side by side and are never
    compared: the row log is computed from the row table alone (and the time
    zone of the session), the binary log from the blob table alone, and a
    loop raises exactly when the measurement of a blob raises.  The logs
    hold one line per query, in order.  The line of a blob is under the
    identifier queried.  The line of the rows is under the array of the
    identifiers that the rows returned carry: the array of the identifier
    queried when the query returned rows, the empty array when it returned
    none.  A run that raises nothing has written four reports, the row log
    and the binary log of the full scan over 1..57 in [all_years_rows.csv]
    and [all_years_binary.csv], those of the filtered scan over the requests
    in [filtered_years_rows.csv] and [filtered_years_binary.csv]. *)
Theorem representations_logged_apart
  (P : Q -> Q) (draw : nat -> nat) (c : DB) (ids : list Z) (requests : list request) :
  full_scan P c ids =
    (lb <- binary_log_full P c ids empty_log ;;
     Ok (rows_log_full (row_data c) ids, lb)) /\
  filtered_scan P c requests =
    (lb <- binary_log_filtered P c requests empty_log ;;
     Ok (rows_log_filtered (session_year c) (row_data c) requests, lb)) /\
  (forall c', binary_data c' = binary_data c ->
     binary_log_full P c' ids empty_log = binary_log_full P c ids empty_log /\
     binary_log_filtered P c' requests empty_log
       = binary_log_filtered P c requests empty_log) /\
  rows_log_full (row_data c) ids
    = log_of (map (fun i => measure_rows (row_q c i)) ids) /\
  rows_log_filtered (session_year c) (row_data c) requests
    = log_of (map (fun param => measure_rows (row_q_filtered c param)) requests) /\
  binary_log_full P c ids empty_log
    = (ms <- mapM (measure_binary_full P c) ids ;; Ok (log_of ms)) /\
  binary_log_filtered P c requests empty_log
    = (ms <- mapM (measure_binary_filtered P c) requests ;; Ok (log_of ms)) /\
  (forall ms, mapM (measure_binary_full P c) ids = Ok ms -> map id_of ms = ids) /\
  (forall ms, mapM (measure_binary_filtered P c) requests = Ok ms ->
     map id_of ms = map rid requests) /\
  (forall i, id_of (measure_rows (row_q c i))
             = if existsb (fun r => data_set_id r =? i) (row_data c)
               then [i] else []) /\
  (forall param, id_of (measure_rows (row_q_filtered c param))
                 = if existsb (fun r => (data_set_id r =? rid param)
                                        && in_years param (session_year c (date r)))
                              (row_data c)
                   then [rid param] else []) /\
  (raised (run_harness P draw c) = None ->
   exists requests' ms fs,
     build_requests draw 0 (req_query c) = Ok requests' /\
     mapM (measure_binary_full P c) availabe_ids = Ok ms /\
     mapM (measure_binary_filtered P c) requests' = Ok fs /\
     written (run_harness P draw c)
     = [ RowsReport "all_years_rows.csv"
           (log_of (map (fun i => measure_rows (row_q c i)) availabe_ids));
         BinaryReport "all_years_binary.csv" (log_of ms);
         RowsReport "filtered_years_rows.csv"
           (log_of (map (fun param => measure_rows (row_q_filtered c param)) requests'));
         BinaryReport "filtered_years_binary.csv" (log_of fs) ]).
Proof.
  assert (Hfull : forall l, full_scan P c l =
            (ms <- mapM (measure_binary_full P c) l ;;
             Ok (log_of (map (fun i => measure_rows (row_q c i)) l), log_of ms))).
  { intros l. unfold full_scan. rewrite full_scan_from_split, binary_log_full_lines.
    destruct (mapM _ l); cbn [bind]; [|reflexivity]. now rewrite rows_log_lines. }
  assert (Hfilt : forall l, filtered_scan P c l =
            (ms <- mapM (measure_binary_filtered P c) l ;;
             Ok (log_of (map (fun param => measure_rows (row_q_filtered c param)) l),
                 log_of ms))).
  { intros l. unfold filtered_scan.
    rewrite filtered_scan_from_split, binary_log_filtered_lines.
    destruct (mapM _ l); cbn [bind]; [|reflexivity]. now rewrite rows_log_lines. }
  split; [apply full_scan_from_split|].
  split; [apply filtered_scan_from_split|].
  split.
  { intros c' H. split.
    - now apply binary_log_full_ext.
    - now apply binary_log_filtered_ext. }
  split; [apply (rows_log_lines (fun i => measure_rows (row_q c i)))|].
  split; [apply (rows_log_lines (fun param => measure_rows (row_q_filtered c param)))|].
  split; [apply binary_log_full_lines|].
  split; [apply binary_log_filtered_lines|].
  split.
  { intros ms Hms.
    rewrite (mapM_ids (measure_binary_full P c) (fun i => i) ids ms); auto using map_id.
    intros a m. apply measure_binary_full_id. }
  split.
  { intros ms. apply mapM_ids. intros a m. apply measure_binary_filtered_id. }
  split.
  { intros i. unfold measure_rows, id_of, row_q. cbn [fst].
    apply unique_ids_filter. intros r. apply Z.eqb_eq. }
  split.
  { intros param. unfold measure_rows, id_of, row_q_filtered. cbn [fst].
    apply unique_ids_filter. intros r Hr. apply andb_true_iff in Hr.
    now apply Z.eqb_eq. }
  unfold run_harness.
  destruct (build_requests draw 0 (req_query c)) as [requests'|e]; [|discriminate].
  rewrite Hfull, Hfilt.
  destruct (mapM (measure_binary_full P c) availabe_ids) as [ms|e] eqn:Ems;
    cbn [bind]; [|discriminate].
  destruct (mapM (measure_binary_filtered P c) requests') as [fs|e] eqn:Efs;
    cbn [bind]; [|discriminate].
  intros _. exists requests', ms, fs. repeat split; auto.
Qed.

(** The run on the store of the mismatch: four reports. *)
Lemma representations_logged_apart_witness :
  raised (run_harness exact_csv_float ex_draw ex_db_mismatch) = None /\
  exists requests ms fs,
    written (run_harness exact_csv_float ex_draw ex_db_mismatch)
    = [ RowsReport "all_years_rows.csv"
          (log_of (map (fun i => measure_rows (row_q ex_db_mismatch i)) availabe_ids));
        BinaryReport "all_years_binary.csv" (log_of ms);
        RowsReport "filtered_years_rows.csv"
          (log_of (map (fun param => measure_rows (row_q_filtered ex_db_mismatch param))
                       requests));
        BinaryReport "filtered_years_binary.csv" (log_of fs) ].
Proof.
  assert (H : raised (run_harness exact_csv_float ex_draw ex_db_mismatch) = None)
    by (vm_compute; reflexivity).
  split; [exact H|].
  destruct (representations_logged_apart exact_csv_float ex_draw ex_db_mismatch [] [])
    as (_ & _ & _ & _ & _ & _ & _ & _ & _ & _ & _ & Hrun).
  destruct (Hrun H) as (requests & ms & fs & _ & _ & _ & Hw).
  exists requests, ms, fs. exact Hw.
Defined.
